(** * causality/estimation/parametric.py

    A shallow embedding of the two estimators of [parametric.py],
    [DifferenceInDifferences] and [PropensityScoreMatching], and the
    properties of them that the specification states.

    Modelling conventions.
    - A pandas [DataFrame] is a row count and a finite map from column
      label to the column's cells; rows are addressed by position (the
      default [RangeIndex]).
    - A Python float, and a numpy [float64], is an IEEE 754 binary64 value
      ([spec_float] of the standard library at precision 53 and maximal
      exponent 1024): every addition, multiplication and division rounds
      to nearest, ties to even, and there are infinities, signed zeros and
      a [NaN]. The one thing left to the library is the order in which
      numpy adds up the cells of an array ([array_sum] of
      [Collaborators]), on which [Series.mean] and [Series.var] rest.
    - An exception is a value of [exn]; a call either returns or raises.
    - statsmodels ([OLS], [RLM], [Logit]), scikit-learn
      ([NearestNeighbors]), [pd.get_dummies] and numpy's reductions are
      external: they are the fields of [Collaborators], and every
      definition and theorem about the code is parametric in them.
    - [PropensityScoreMatching] mutates the tables it is handed, so its
      methods run in a state-and-exception monad over a store of
      [DataFrame] objects and the object's [propensity_score_model]
      attribute. *)

From Stdlib Require Import ZArith SpecFloat.
From stdpp Require Import gmap strings list fin_maps functions.

Open Scope string_scope.
Open Scope list_scope.

(* ===================================================================== *)
(** ** Python values                                                      *)
(* ===================================================================== *)

(** Exceptions, by class. [LibraryError] is an exception class of a library
    (statsmodels' [PerfectSeparationError], numpy's [LinAlgError], ...);
    nothing in [parametric.py] itself constructs one. *)
Inductive exn : Type :=
| KeyError (missing : list string)
| NameError (name : string)
| IndexError
| TypeError
| ValueError
| ZeroDivisionError
| LibraryError (cls : string).

Definition exn_class (e : exn) : string :=
  match e with
  | KeyError _ => "KeyError"
  | NameError _ => "NameError"
  | IndexError => "IndexError"
  | TypeError => "TypeError"
  | ValueError => "ValueError"
  | ZeroDivisionError => "ZeroDivisionError"
  | LibraryError cls => cls
  end.

Inductive result (A : Type) : Type :=
| Ok (a : A)
| Raise (e : exn).
Arguments Ok {A} a.
Arguments Raise {A} e.

Definition rbind {A B} (r : result A) (k : A -> result B) : result B :=
  match r with
  | Ok a => k a
  | Raise e => Raise e
  end.

Notation "'let?' x ':=' e 'in' k" := (rbind e (fun x => k))
  (at level 10, x pattern, e at level 100, k at level 200,
   format "'[v' 'let?'  x  ':='  e  'in' '/' k ']'").

Fixpoint rmap {A B} (f : A -> result B) (l : list A) : result (list B) :=
  match l with
  | [] => Ok []
  | a :: l' => let? b := f a in let? bs := rmap f l' in Ok (b :: bs)
  end.

(** [raises r cls]: the call whose outcome is [r] raised an exception of
    class [cls]. *)
Definition raises {A} (r : result A) (cls : string) : Prop :=
  match r with
  | Ok _ => False
  | Raise e => exn_class e = cls
  end.

(** Floats: IEEE 754 binary64. *)
Definition pyfloat : Type := spec_float.

Definition NaN : pyfloat := S754_nan.

(** [float(z)] of a Python [int]: the nearest float. *)
Definition of_Z (z : Z) : pyfloat := binary_normalize 53 1024 z 0 false.
Definition of_nat (n : nat) : pyfloat := of_Z (Z.of_nat n).

Definition zero : pyfloat := S754_zero false.
Definition one : pyfloat := Eval vm_compute in of_Z 1.
Definition two : pyfloat := Eval vm_compute in of_Z 2.

Definition fadd : pyfloat -> pyfloat -> pyfloat := SFadd 53 1024.
Definition fsub : pyfloat -> pyfloat -> pyfloat := SFsub 53 1024.
Definition fmul : pyfloat -> pyfloat -> pyfloat := SFmul 53 1024.
Definition fneg : pyfloat -> pyfloat := SFopp.
Definition fabs : pyfloat -> pyfloat := SFabs.
(** numpy division: a zero divisor gives an infinity or [NaN], no
    exception. *)
Definition fdiv : pyfloat -> pyfloat -> pyfloat := SFdiv 53 1024.
(** [x == y] and [x <= y]: false as soon as one side is [NaN]. *)
Definition feqb : pyfloat -> pyfloat -> bool := SFeqb.
Definition fleb : pyfloat -> pyfloat -> bool := SFleb.
Definition fltb : pyfloat -> pyfloat -> bool := SFltb.

Definition is_nan (x : pyfloat) : bool :=
  match x with S754_nan => true | _ => false end.

(** The float that the decimal literal [m * 10^-e] denotes, for
    [|m| < 2^53] and [e <= 22]. *)
Definition decimal (m : Z) (e : nat) : pyfloat :=
  fdiv (of_Z m) (of_Z (10 ^ Z.of_nat e)).

(** [x % 2] on a float (numpy's [remainder], Python's [%]): the remainder
    [r] of [|x|] by 2 is exact; it is the result for a positive [x], and
    for a negative [x] with [r <> 0] the result is [-r + 2], rounded; a
    zero remainder is [+0.0], and an infinity has none. *)
Definition fmod2 (x : pyfloat) : pyfloat :=
  match x with
  | S754_nan | S754_infinity _ => NaN
  | S754_zero _ => zero
  | S754_finite s m e =>
      let r := if (0 <? e)%Z then zero
               else binary_normalize 53 1024 (Zpos m mod 2 ^ (1 - e)) e false in
      match r with
      | S754_zero _ => zero
      | _ => if s then fadd (fneg r) two else r
      end
  end.

(** Python's own [a / float(b)] on two [len]s. *)
Definition py_truediv (a b : nat) : result pyfloat :=
  match b with
  | O => Raise ZeroDivisionError
  | S _ => Ok (fdiv (of_nat a) (of_nat b))
  end.

(** The content of one cell of a table: a float, a label (a categorical
    confounder), or the array of row positions that [match] stores in the
    [matches] column ([kneighbors(x)[1]], a 1-by-k array: [ix] is its
    only row). *)
Inductive cell : Type :=
| Num (x : pyfloat)
| Str (s : string)
| Matches (ix : list nat).

Abbreviation Series := (list cell).

(** [s == v] on one cell, for a number [v]. *)
Definition cell_eq (v : pyfloat) (c : cell) : bool :=
  match c with
  | Num x => feqb x v
  | _ => false
  end.

Definition as_float (c : cell) : result pyfloat :=
  match c with
  | Num x => Ok x
  | _ => Raise TypeError
  end.

(** [s1 * s2] on two columns of one frame. *)
Fixpoint series_mul (s1 s2 : Series) : result Series :=
  match s1, s2 with
  | c1 :: r1, c2 :: r2 =>
      let? x := as_float c1 in
      let? y := as_float c2 in
      let? r := series_mul r1 r2 in
      Ok (Num (fmul x y) :: r)
  | _, _ => Ok []
  end.

(** Python's builtin [sum]: from the integer 0, one addition per item,
    left to right. *)
Definition fsum (l : list pyfloat) : pyfloat := fold_left fadd l zero.

(* ===================================================================== *)
(** ** pandas.DataFrame                                                   *)
(* ===================================================================== *)

Record DataFrame : Type := mkDataFrame {
  nrows : nat;
  columns : gmap string Series
}.

(** The invariant of a frame: every column has one cell per row. *)
Definition wf_frame (X : DataFrame) : Prop :=
  map_Forall (fun _ s => length s = nrows X) (columns X).

(** [X[c]] *)
Definition getitem (X : DataFrame) (c : string) : result Series :=
  match columns X !! c with
  | Some s => Ok s
  | None => Raise (KeyError [c])
  end.

(** [X[[c1, ..., cn]]]: a new frame of the listed columns. *)
Definition getitems (X : DataFrame) (cs : list string) : result DataFrame :=
  match List.filter (fun c => bool_decide (columns X !! c = None)) cs with
  | [] => Ok (mkDataFrame (nrows X)
                (filter (fun kv => kv.1 ∈ cs) (columns X)))
  | missing => Raise (KeyError missing)
  end.

(** The rows of a column that a boolean mask keeps. *)
Fixpoint select (mask : list bool) (s : Series) : Series :=
  match mask, s with
  | b :: mask', c :: s' => if b then c :: select mask' s' else select mask' s'
  | _, _ => []
  end.

Definition count_true (mask : list bool) : nat :=
  length (List.filter id mask).

(** [X[mask]]: a new frame of the rows where the mask holds. *)
Definition boolean_index (X : DataFrame) (mask : list bool) : DataFrame :=
  mkDataFrame (count_true mask) (select mask <$> columns X).

(** [X[c] = s] and [X.loc[:, c] = s] for a column [s] of the same index:
    the column is added or replaced. *)
Definition setitem (X : DataFrame) (c : string) (s : Series) : DataFrame :=
  mkDataFrame (nrows X) (<[c := s]> (columns X)).

(** The same for an array that a library returned: pandas refuses one of
    the wrong length. *)
Definition setarray (X : DataFrame) (c : string) (s : Series) : result DataFrame :=
  if decide (length s = nrows X) then Ok (setitem X c s) else Raise ValueError.

(** [X[c] = v] for a scalar [v]. *)
Definition setscalar (X : DataFrame) (c : string) (v : cell) : DataFrame :=
  setitem X c (replicate (nrows X) v).

(** [X.loc[:, c] = v] for a scalar [v]. A column that is not there is
    added, which pandas refuses on a frame with no row ([ValueError]:
    cannot set a frame with no defined index and a scalar). *)
Definition loc_setscalar (X : DataFrame) (c : string) (v : cell)
  : result DataFrame :=
  match nrows X, columns X !! c with
  | O, None => Raise ValueError
  | _, _ => Ok (setscalar X c v)
  end.

(** [pd.DataFrame({...})] from columns of one length. *)
Definition from_dict (d : list (string * Series)) : DataFrame :=
  mkDataFrame (match d with [] => 0 | (_, s) :: _ => length s end)
              (list_to_map d).

(** [X.append(Y)]: the rows of [Y] under those of [X]; a column that one of
    them lacks is filled with [NaN]. *)
Definition append (X Y : DataFrame) : DataFrame :=
  mkDataFrame (nrows X + nrows Y)
    (merge (fun x y =>
              match x, y with
              | Some a, Some b => Some (a ++ b)
              | Some a, None => Some (a ++ replicate (nrows Y) (Num NaN))
              | None, Some b => Some (replicate (nrows X) (Num NaN) ++ b)
              | None, None => None
              end) (columns X) (columns Y)).

(** [len(X[X[c] == v])] *)
Definition count_eq (X : DataFrame) (c : string) (v : pyfloat) : result nat :=
  let? a := getitem X c in Ok (count_true (map (cell_eq v) a)).

(* ===================================================================== *)
(** ** State and exceptions                                               *)
(* ===================================================================== *)

(** A computation over a state [W] that returns or raises; what it wrote
    before raising stays written. *)
Definition M (W A : Type) : Type := W -> result A * W.

Definition ret {W A} (a : A) : M W A := fun w => (Ok a, w).

Definition bind {W A B} (m : M W A) (k : A -> M W B) : M W B :=
  fun w =>
    match m w with
    | (Ok a, w') => k a w'
    | (Raise e, w') => (Raise e, w')
    end.

Definition lift {W A} (r : result A) : M W A := fun w => (r, w).

Notation "'let!' x ':=' e 'in' k" := (bind e (fun x => k))
  (at level 10, x pattern, e at level 100, k at level 200,
   format "'[v' 'let!'  x  ':='  e  'in' '/' k ']'").

(* ===================================================================== *)
(** ** The libraries the module calls                                     *)
(* ===================================================================== *)

(** [self.model] of a [DifferenceInDifferences]: the class it fits. *)
Inductive estimator : Type := OLS | RLM.

(** What [parametric.py] imports and calls. A design matrix [df[cols]] is
    handed over as the column labels, in order, and the frame of those
    columns. *)
Record Collaborators : Type := {
  (** statsmodels [OLS(endog, exog)] and [RLM(endog, exog)], [.fit()],
      [result.conf_int().ix[name]], [result.params[name]] *)
  linear_model : Type;
  linear_results : Type;
  new_linear_model :
    estimator -> Series -> list string -> DataFrame -> result linear_model;
  linear_fit : linear_model -> result linear_results;
  conf_int : linear_results -> string -> result (pyfloat * pyfloat);
  params : linear_results -> string -> result pyfloat;
  (** statsmodels [Logit(endog, exog)], [.fit()], [model.predict(exog)] *)
  logit_model : Type;
  logit_results : Type;
  new_Logit : Series -> list string -> DataFrame -> result logit_model;
  logit_fit : logit_model -> result logit_results;
  predict : logit_results -> list string -> DataFrame -> result Series;
  (** [pd.get_dummies(frame, prefix=p)]: the labels of the columns of the
      answer, in order, and the answer *)
  get_dummies : DataFrame -> string -> result (list string * DataFrame);
  (** scikit-learn [NearestNeighbors(metric='euclidean', n_neighbors=k)
      .fit(values)] and [.kneighbors(x)[1]] *)
  neighbors : Type;
  NearestNeighbors_fit : nat -> DataFrame -> result neighbors;
  kneighbors : neighbors -> cell -> result (list nat);
  (** numpy's [sqrt], which [calculate_balance] reaches for through the
      global name [np] *)
  sqrt : pyfloat -> pyfloat;
  (** numpy's [add.reduce] on a [float64] array, by which pandas computes
      [Series.mean] and [Series.var]: the sum of the cells, added up in
      the order numpy chooses *)
  array_sum : list pyfloat -> pyfloat
}.

(* ===================================================================== *)
(** ** pandas reductions                                                  *)
(* ===================================================================== *)

Section Reductions.
Context (lib : Collaborators).

(** The values that are not missing. *)
Definition present (xs : list pyfloat) : list pyfloat :=
  List.filter (fun x => negb (is_nan x)) xs.

(** [Series.mean()]: missing values are skipped; the sum of the others is
    divided by their count, and the mean of nothing is [NaN]. *)
Definition mean (s : Series) : result pyfloat :=
  let? xs := rmap as_float s in
  let values := present xs in
  let count := length values in
  if (count =? 0)%nat then Ok NaN
  else Ok (fdiv (array_sum lib values) (of_nat count)).

(** [X.mean()[c]]: [DataFrame.mean] leaves out the columns that have no
    mean, so asking for one of them is a [KeyError]. *)
Definition frame_mean_at (X : DataFrame) (c : string) : result pyfloat :=
  match columns X !! c with
  | Some s =>
      match mean s with
      | Ok m => Ok m
      | Raise _ => Raise (KeyError [c])
      end
  | None => Raise (KeyError [c])
  end.

(** [Series.var()]: the sample variance (one degree of freedom less) of the
    values present; [NaN] when there are fewer than two. *)
Definition var (s : Series) : result pyfloat :=
  let? xs := rmap as_float s in
  let values := present xs in
  let count := length values in
  if (count <=? 1)%nat then Ok NaN
  else
    let avg := fdiv (array_sum lib values) (of_nat count) in
    let sqr := map (fun x => fmul (fsub avg x) (fsub avg x)) values in
    Ok (fdiv (array_sum lib sqr) (of_nat (count - 1))).

(** [X.var()[c]] *)
Definition frame_var_at (X : DataFrame) (c : string) : result pyfloat :=
  match columns X !! c with
  | Some s =>
      match var s with
      | Ok v => Ok v
      | Raise _ => Raise (KeyError [c])
      end
  | None => Raise (KeyError [c])
  end.

End Reductions.

(* ===================================================================== *)
(** ** class DifferenceInDifferences                                      *)
(* ===================================================================== *)

Module DifferenceInDifferences.
Section DiD.
Context (lib : Collaborators).

Record t : Type := { model : estimator }.

(** [__init__(self, robust=True)] *)
Definition init (robust : bool) : t :=
  {| model := if robust then RLM else OLS |}.

(** [pd.DataFrame({'y': y, 'assignment': [a for i in y], 't': [t for i in y]})] *)
Definition block (y : Series) (a t : pyfloat) : DataFrame :=
  from_dict [("y", y);
             ("assignment", map (fun _ => Num a) y);
             ("t", map (fun _ => Num t) y)].

(** Lines 25 to 51 of [average_treatment_effect]: the panel [df] that is
    handed to the regression. The parameters [start], [end] and
    [assignment] are not read: the labels are the literals of the source. *)
Definition panel (X : DataFrame) (start end_ assignment : string)
  : result DataFrame :=
  let? a := getitem X "Assignment" in
  let? test := getitems (boolean_index X (map (cell_eq one) a)) ["Start"; "End"] in
  let? a := getitem X "Assignment" in
  let? control := getitems (boolean_index X (map (cell_eq zero) a)) ["Start"; "End"] in
  let? test_initial := getitem test "Start" in
  let? test_final := getitem test "End" in
  let? control_initial := getitem control "Start" in
  let? control_final := getitem control "End" in
  let df := block test_initial one zero in
  let df := append df (block test_final one one) in
  let df := append df (block control_initial zero zero) in
  let df := append df (block control_final zero one) in
  let? t := getitem df "t" in
  let? a := getitem df "assignment" in
  let? did := series_mul t a in
  let df := setitem df "did" did in
  let df := setscalar df "intercept" (Num one) in
  Ok df.

(** [average_treatment_effect(self, X, start='Start', end='End',
    assignment='Assignment')] *)
Definition average_treatment_effect (self : t) (X : DataFrame)
    (start end_ assignment : string) : result (pyfloat * pyfloat * pyfloat) :=
  let? df := panel X start end_ assignment in
  let? y := getitem df "y" in
  let? exog := getitems df ["t"; "assignment"; "did"; "intercept"] in
  let? model :=
    new_linear_model lib (model self) y ["t"; "assignment"; "did"; "intercept"] exog in
  let? result := linear_fit lib model in
  let? conf_int := conf_int lib result "did" in
  let? expected := params lib result "did" in
  Ok (conf_int.1, expected, conf_int.2).

(** Python's chained comparison [lower <= 0 <= upper]; a comparison with
    [NaN] is false. *)
Definition contains_zero (lower upper : pyfloat) : bool :=
  fleb lower zero && fleb zero upper.

(** [test_parallel_trend(self, X, start='Start', end='End',
    assignment='Assignment')] *)
Definition test_parallel_trend (self : t) (X : DataFrame)
    (start end_ assignment : string) : result bool :=
  let? r := average_treatment_effect self X start end_ assignment in
  let '(lower, exp, upper) := r in
  if contains_zero lower upper then Ok true else Ok false.

End DiD.
End DifferenceInDifferences.

(* ===================================================================== *)
(** ** class PropensityScoreMatching                                      *)
(* ===================================================================== *)

(** The names bound at module level when a method runs: the five imports
    and the two classes. *)
Definition module_globals : list string :=
  ["pd"; "OLS"; "RLM"; "Logit"; "NearestNeighbors";
   "DifferenceInDifferences"; "PropensityScoreMatching"].

(** Reading a global name that is not a builtin. *)
Definition global (name : string) : result unit :=
  if bool_decide (name ∈ module_globals) then Ok tt else Raise (NameError name).

Module PropensityScoreMatching.
Section PSM.
Context (lib : Collaborators).

(** A reference to a [DataFrame] object. *)
Definition loc : Type := nat.

(** The objects a method can reach: the content of each [DataFrame]
    object, the first reference not yet in use (the objects of the state
    are those below it), and the one attribute of [self]. *)
Record world : Type := mkWorld {
  frames : loc -> DataFrame;
  next_loc : loc;
  propensity_score_model : option (logit_results lib)
}.

(** [__init__(self)] *)
Definition init (w : world) : world :=
  mkWorld (frames w) (next_loc w) None.

Definition load (l : loc) : M world DataFrame :=
  fun w => (Ok (frames w l), w).

Definition store (l : loc) (X : DataFrame) : M world unit :=
  fun w => (Ok tt, mkWorld (<[l := X]> (frames w)) (next_loc w)
                     (propensity_score_model w)).

(** A new object. *)
Definition new (X : DataFrame) : M world loc :=
  fun w => (Ok (next_loc w),
            mkWorld (<[next_loc w := X]> (frames w)) (S (next_loc w))
              (propensity_score_model w)).

Definition set_propensity_score_model (m : logit_results lib) : M world unit :=
  fun w => (Ok tt, mkWorld (frames w) (next_loc w) (Some m)).

(** [df[cols] = src[cols]] *)
Definition assign_columns (df src : DataFrame) (cols : list string)
  : result DataFrame :=
  let? sub := getitems src cols in
  Ok (fold_left (fun d c =>
                   match columns sub !! c with
                   | Some s => setitem d c s
                   | None => d
                   end) cols df).

(** The loop of [score] over [confounder_types.items()], on the content [x]
    of [X]; it builds the local [df] and [regression_confounders]. *)
Fixpoint score_confounders (x : DataFrame) (items : list (string * string))
    (df : DataFrame) (regression_confounders : list string)
  : result (DataFrame * list string) :=
  match items with
  | [] => Ok (df, regression_confounders)
  | (confounder, var_type) :: items' =>
      if bool_decide (var_type = "o") || bool_decide (var_type = "u") then
        let? xc := getitems x [confounder] in
        let? d := get_dummies lib xc confounder in
        let '(dummy_columns, c_dummies) := d in
        if bool_decide (length dummy_columns = 1%nat) then
          let? df := assign_columns df c_dummies dummy_columns in
          score_confounders x items' df
            (regression_confounders ++ dummy_columns)
        else
          let? df := assign_columns df c_dummies (tail dummy_columns) in
          score_confounders x items' df
            (regression_confounders ++ tail dummy_columns)
      else
        let regression_confounders := regression_confounders ++ [confounder] in
        let? c := getitem x confounder in
        let df := setitem df confounder c in
        let? c := getitem x confounder in
        let df := setitem df confounder c in
        score_confounders x items' df regression_confounders
  end.

(** [score(self, X, confounder_types, assignment='assignment',
    store_model_fit=False, intercept=True)] *)
Definition score (X : loc) (confounder_types : list (string * string))
    (assignment : string) (store_model_fit intercept : bool) : M world loc :=
  let! x := load X in
  let! df := lift (getitems x [assignment]) in
  let! r := lift (score_confounders x confounder_types df []) in
  let '(df, regression_confounders) := r in
  let! r := lift (if intercept
                  then let? df := loc_setscalar df "intercept" (Num one) in
                       Ok (df, regression_confounders ++ ["intercept"])
                  else Ok (df, regression_confounders)) in
  let '(df, regression_confounders) := r in
  let! endog := lift (getitem df assignment) in
  let! exog := lift (getitems df regression_confounders) in
  let! logit := lift (new_Logit lib endog regression_confounders exog) in
  let! model := lift (logit_fit lib logit) in
  let! _ := if store_model_fit then set_propensity_score_model model
            else ret tt in
  let! exog := lift (getitems df regression_confounders) in
  let! scores := lift (predict lib model regression_confounders exog) in
  let! x := load X in
  let! x := lift (setarray x "propensity score" scores) in
  let! _ := store X x in
  ret X.

(** [match(self, X, assignment='assignment', score='propensity score',
    n_neighbors=2)] *)
Definition match_ (X : loc) (assignment score : string) (n_neighbors : nat)
  : M world (loc * loc) :=
  let! x := load X in
  let! a := lift (getitem x assignment) in
  let! treatments := new (boolean_index x (map (cell_eq one) a)) in
  let! x := load X in
  let! a := lift (getitem x assignment) in
  let! control := new (boolean_index x (map (cell_eq zero) a)) in
  let! c := load control in
  let! values := lift (getitems c [score]) in
  let! neighbor_search := lift (NearestNeighbors_fit lib n_neighbors values) in
  let! t := load treatments in
  let! s := lift (getitem t score) in
  let! m := lift (rmap (fun x =>
                          let? ix := kneighbors lib neighbor_search x in
                          Ok (Matches ix)) s) in
  let! t := load treatments in
  let! _ := store treatments (setitem t "matches" m) in
  ret (treatments, control).

(** The closure [get_matched_outcome(matches)] of [estimate_treatments]:
    [sum([control[outcome].values[i] / float(len(matches[0]))
          for i in matches[0]])]. *)
Definition get_matched_outcome (control : DataFrame) (outcome : string)
    (matches : cell) : result cell :=
  match matches with
  | Matches ix =>
      let? terms :=
        rmap (fun i =>
                let? values := getitem control outcome in
                match values !! i with
                | Some c =>
                    let? v := as_float c in
                    Ok (fdiv v (of_nat (length ix)))
                | None => Raise IndexError
                end) ix in
      Ok (Num (fsum terms))
  | _ => Raise TypeError
  end.

(** [estimate_treatments(self, treatments, control, outcome)] *)
Definition estimate_treatments (treatments control : loc) (outcome : string)
  : M world loc :=
  let! t := load treatments in
  let! m := lift (getitem t "matches") in
  let! c := load control in
  let! o := lift (rmap (get_matched_outcome c outcome) m) in
  let! t := load treatments in
  let! _ := store treatments (setitem t "control outcome" o) in
  ret treatments.

(** [estimate_ATT(self, X, assignment, outcome, confounder_types,
    n_neighbors=5)] *)
Definition estimate_ATT (X : loc) (assignment outcome : string)
    (confounder_types : list (string * string)) (n_neighbors : nat)
  : M world pyfloat :=
  let! X := score X confounder_types assignment false true in
  let! tc := match_ X assignment "propensity score" n_neighbors in
  let '(treatments, control) := tc in
  let! treatments := estimate_treatments treatments control outcome in
  let! t := load treatments in
  let! y := lift (getitem t outcome) in
  let! y_hat_treated := lift (mean lib y) in
  let! t := load treatments in
  let! y := lift (getitem t "control outcome") in
  let! y_hat_control := lift (mean lib y) in
  ret (fsub y_hat_treated y_hat_control).

(** [(a + 1) % 2] on one cell. *)
Definition flip (c : cell) : result cell :=
  let? a := as_float c in Ok (Num (fmod2 (fadd a one))).

(** [estimate_ATC(self, X, assignment, outcome, confounder_types,
    n_neighbors=5)] *)
Definition estimate_ATC (X : loc) (assignment outcome : string)
    (confounder_types : list (string * string)) (n_neighbors : nat)
  : M world pyfloat :=
  let! x := load X in
  let! df := new x in
  let! d := load df in
  let! a := lift (getitem d assignment) in
  let! a := lift (rmap flip a) in
  let! d := load df in
  let! _ := store df (setitem d assignment a) in
  let! att := estimate_ATT df assignment outcome confounder_types n_neighbors in
  ret (fneg att).

(** [estimate_ATE(self, X, assignment, outcome, confounder_types,
    n_neighbors=5)] *)
Definition estimate_ATE (X : loc) (assignment outcome : string)
    (confounder_types : list (string * string)) (n_neighbors : nat)
  : M world pyfloat :=
  let! att := estimate_ATT X assignment outcome confounder_types n_neighbors in
  let! atc := estimate_ATC X assignment outcome confounder_types n_neighbors in
  let! x := load X in
  let! treated := lift (count_eq x assignment one) in
  let! x := load X in
  let! p_assignment := lift (py_truediv treated (nrows x)) in
  ret (fadd (fmul p_assignment att) (fmul (fsub one p_assignment) atc)).

(** [assess_balance(self, X, treated, control, assignment, confounders)]:
    [pass]. *)
Definition assess_balance (X treated control : loc) (assignment : string)
    (confounders : list string) : M world unit :=
  ret tt.

(** [calculate_balance(self, X, x, d)]. The callee [np.sqrt] is evaluated
    before its argument, so the name [np] is read right after the
    numerator is computed. *)
Definition calculate_balance (X : loc) (x d : string) : M world pyfloat :=
  let! X_ := load X in
  let! a := lift (getitem X_ d) in
  let! m1 := lift (frame_mean_at lib (boolean_index X_ (map (cell_eq one) a)) x) in
  let! a := lift (getitem X_ d) in
  let! m0 := lift (frame_mean_at lib (boolean_index X_ (map (cell_eq zero) a)) x) in
  let numerator := fsub m1 m0 in
  let! _ := lift (global "np") in
  let! a := lift (getitem X_ d) in
  let! v1 := lift (frame_var_at lib (boolean_index X_ (map (cell_eq one) a)) x) in
  let! a := lift (getitem X_ d) in
  let! v0 := lift (frame_var_at lib (boolean_index X_ (map (cell_eq zero) a)) x) in
  let denominator := sqrt lib (fdiv (fadd v1 v0) two) in
  ret (fdiv numerator denominator).

End PSM.
End PropensityScoreMatching.

(* ===================================================================== *)
(** ** A stand-in for the libraries                                       *)
(* ===================================================================== *)

(** Small deterministic implementations of the collaborators, to run the
    code on concrete tables. They are not statsmodels or scikit-learn: the
    theorems about the code hold for every [Collaborators]; the examples
    below fix this one. *)
Module Standin.

Definition floats (s : Series) : list pyfloat :=
  omap (fun c => match c with Num x => Some x | _ => None end) s.

Definition group_mean (y : Series) (mask : list bool) : pyfloat :=
  let ys := floats (select mask y) in
  fdiv (fsum ys) (of_nat (length ys)).

Definition column (X : DataFrame) (c : string) : Series :=
  default [] (columns X !! c).

(** Least squares on the saturated two-by-two design: the coefficient of
    [did] is the difference of the differences of the four group means. *)
Definition did_estimate (y : Series) (exog : DataFrame) : pyfloat :=
  let t := map (cell_eq one) (column exog "t") in
  let a := map (cell_eq one) (column exog "assignment") in
  let g (ta aa : bool) :=
    group_mean y (zip_with (fun x z => eqb x ta && eqb z aa) t a) in
  fsub (fsub (g true true) (g false true))
       (fsub (g true false) (g false false)).

(** [(1 + q / (1 + |q|)) / 2] *)
Definition squash (q : pyfloat) : pyfloat :=
  fdiv (fadd one (fdiv q (fadd one (fabs q)))) two.

(** A monotone score in (0, 1) of the first regressor. *)
Definition scores_of (labels : list string) (exog : DataFrame) : Series :=
  match labels with
  | [] => replicate (nrows exog) (Num (decimal 5 1))
  | c :: _ =>
      map (fun v => match v with
                    | Num q => Num (squash q)
                    | _ => Num NaN
                    end) (column exog c)
  end.

(** Numeric columns are left as they are. *)
Definition dummies (X : DataFrame) (pre : string)
  : result (list string * DataFrame) :=
  Ok ((map_to_list (columns X)).*1, X).

Definition distance (q : pyfloat) (c : cell) : pyfloat :=
  match c with
  | Num s => fabs (fsub s q)
  | _ => zero
  end.

(** [l] is sorted by distance; [(d, i)] goes before the first entry that is
    not nearer. *)
Fixpoint insert_by (d : pyfloat) (i : nat) (l : list (pyfloat * nat))
  : list (pyfloat * nat) :=
  match l with
  | [] => [(d, i)]
  | (d', i') :: l' =>
      if fltb d' d then (d', i') :: insert_by d i l' else (d, i) :: (d', i') :: l'
  end.

(** The positions of the [k] samples nearest to [x], nearest first, the
    lower position first among equals. *)
Definition nearest (fitted : nat * Series) (x : cell) : result (list nat) :=
  let '(k, samples) := fitted in
  match x with
  | Num S754_nan => Raise ValueError
  | Num q =>
      if decide (k <= length samples)%nat then
        let ranked :=
          fold_right (fun di acc => insert_by di.1 di.2 acc) []
            (imap (fun i c => (distance q c, i)) samples) in
        Ok (take k ranked).*2
      else Raise ValueError
  | _ => Raise ValueError
  end.

Definition fit_neighbors (k : nat) (values : DataFrame)
  : result (nat * Series) :=
  match map_to_list (columns values) with
  | [(_, s)] =>
      match s with
      | [] => Raise ValueError
      | _ => Ok (k, s)
      end
  | _ => Raise ValueError
  end.

Definition lib : Collaborators := {|
  linear_model := Series * DataFrame;
  linear_results := pyfloat;
  new_linear_model := fun _ y _ exog => Ok (y, exog);
  linear_fit := fun m => Ok (did_estimate m.1 m.2);
  conf_int := fun r _ => Ok (r, r);
  params := fun r _ => Ok r;
  logit_model := unit;
  logit_results := unit;
  new_Logit := fun _ _ _ => Ok tt;
  logit_fit := fun _ => Ok tt;
  predict := fun _ labels exog => Ok (scores_of labels exog);
  get_dummies := dummies;
  neighbors := nat * Series;
  NearestNeighbors_fit := fit_neighbors;
  kneighbors := nearest;
  sqrt := SFsqrt 53 1024;
  array_sum := fsum
|}.

End Standin.

(** A table of whole numbers, as floats. *)
Definition table (n : nat) (cols : list (string * list Z)) : DataFrame :=
  mkDataFrame n
    (list_to_map (map (fun kv => (kv.1, map (fun z => Num (of_Z z)) kv.2)) cols)).

(** A world whose object 0 is [X]. *)
Definition world_of (lib : Collaborators) (X : DataFrame)
  : PropensityScoreMatching.world lib :=
  PropensityScoreMatching.mkWorld lib (fun _ => X) 1 None.

(* ===================================================================== *)
(** ** What the methods compute                                           *)
(* ===================================================================== *)

(** The definitions of this part are not in the source. They say what a
    method of [PropensityScoreMatching] computes as a function of the
    content of the table it is handed, and what the statements below need
    to speak about a run; each is tied to the method by a lemma of the
    second part ([score_run], [match_run_Ok], [estimate_ATT_run], ...). *)

Section Readings.
Import PropensityScoreMatching.
Context (lib : Collaborators).

(** What [score] computes up to and including the fit, from the content
    of [X]. *)
Definition score_fit (x : DataFrame) (confounder_types : list (string * string))
    (assignment : string) (intercept : bool)
  : result (logit_results lib * DataFrame * list string) :=
  let? df := getitems x [assignment] in
  let? r := score_confounders lib x confounder_types df [] in
  let '(df, regression_confounders) := r in
  let? r := (if intercept
             then let? df := loc_setscalar df "intercept" (Num one) in
                  Ok (df, regression_confounders ++ ["intercept"])
             else Ok (df, regression_confounders)) in
  let '(df, regression_confounders) := r in
  let? endog := getitem df assignment in
  let? exog := getitems df regression_confounders in
  let? logit := new_Logit lib endog regression_confounders exog in
  let? model := logit_fit lib logit in
  Ok (model, df, regression_confounders).

(** The table [score] leaves in [X], from the fit. *)
Definition score_table (x : DataFrame) (model : logit_results lib)
    (df : DataFrame) (regression_confounders : list string)
  : result DataFrame :=
  let? exog := getitems df regression_confounders in
  let? scores := predict lib model regression_confounders exog in
  setarray x "propensity score" scores.

Definition with_model (w : world lib) (m : logit_results lib) : world lib :=
  mkWorld lib (frames lib w) (next_loc lib w) (Some m).

Definition with_frame (w : world lib) (l : loc) (x : DataFrame) : world lib :=
  mkWorld lib (<[l := x]> (frames lib w)) (next_loc lib w)
    (propensity_score_model lib w).

(** The attribute [propensity_score_model] is not written. *)
Definition keeps_model {A} (m : M (world lib) A) : Prop :=
  forall w,
    propensity_score_model lib (m w).2 = propensity_score_model lib w.

(** The two tables that [match] creates, from the content of [X]. *)
Definition match_frames (x : DataFrame) (assignment score : string)
    (n_neighbors : nat) : result (DataFrame * DataFrame) :=
  let? a := getitem x assignment in
  let treatments := boolean_index x (map (cell_eq one) a) in
  let control := boolean_index x (map (cell_eq zero) a) in
  let? values := getitems control [score] in
  let? neighbor_search := NearestNeighbors_fit lib n_neighbors values in
  let? s := getitem treatments score in
  let? m := rmap (fun x =>
                    let? ix := kneighbors lib neighbor_search x in
                    Ok (Matches ix)) s in
  Ok (setitem treatments "matches" m, control).

(** [w'] extends [w]: the objects of [w] other than [X] are as they were,
    and so is the attribute. *)
Definition extends (X : loc) (w w' : world lib) : Prop :=
  (next_loc lib w <= next_loc lib w')%nat /\
  propensity_score_model lib w' = propensity_score_model lib w /\
  forall l, (l < next_loc lib w)%nat -> l <> X ->
            frames lib w' l = frames lib w l.

(** The table [estimate_treatments] leaves in [treatments]. *)
Definition control_outcomes (t c : DataFrame) (outcome : string)
  : result DataFrame :=
  let? m := getitem t "matches" in
  let? o := rmap (get_matched_outcome c outcome) m in
  Ok (setitem t "control outcome" o).

(** The table [score] leaves in [X] when called as [estimate_ATT] calls
    it. *)
Definition scored (x : DataFrame) (ct : list (string * string)) (a : string)
  : result DataFrame :=
  let? r := score_fit x ct a true in
  let '(m, df, rc) := r in
  score_table x m df rc.

(** The difference of the two means in the table of treated rows. *)
Definition mean_difference (t : DataFrame) (outcome : string)
  : result pyfloat :=
  let? y := getitem t outcome in
  let? y_hat_treated := mean lib y in
  let? y := getitem t "control outcome" in
  let? y_hat_control := mean lib y in
  Ok (fsub y_hat_treated y_hat_control).

(** What [estimate_ATT] answers, from the content of [X]. *)
Definition att_value (x : DataFrame) (a o : string)
    (ct : list (string * string)) (n : nat) : result pyfloat :=
  let? x1 := scored x ct a in
  let? tc := match_frames x1 a "propensity score" n in
  let? t := control_outcomes tc.1 tc.2 o in
  mean_difference t o.

(** What [estimate_ATC] answers, from the content of [X]. *)
Definition atc_value (x : DataFrame) (a o : string)
    (ct : list (string * string)) (n : nat) : result pyfloat :=
  let? col := getitem x a in
  let? flipped := rmap flip col in
  let? att := att_value (setitem x a flipped) a o ct n in
  Ok (fneg att).

End Readings.

(** What [estimate_ATE] answers, from the content of [X]: the second
    estimate and the proportion are computed on the table as [estimate_ATT]
    leaves it. *)
Definition ate_value (lib : Collaborators) (x : DataFrame) (a o : string)
    (ct : list (string * string)) (n : nat) : result pyfloat :=
  let? att := att_value lib x a o ct n in
  let? x1 := scored lib x ct a in
  let? atc := atc_value lib x1 a o ct n in
  let? treated := count_eq x1 a one in
  let? p_assignment := py_truediv treated (nrows x1) in
  Ok (fadd (fmul p_assignment att) (fmul (fsub one p_assignment) atc)).

(** A constant column, as [block] builds them. *)
Definition const_col (v : pyfloat) (y : Series) : Series :=
  map (fun _ => Num v) y.

(** The tags that [score] tells apart from the rest. *)
Definition is_dummy_tag (t : string) : bool :=
  bool_decide (t = "o") || bool_decide (t = "u").

(** Every tag that is neither ['o'] nor ['u'], read as ['c']. *)
Definition as_continuous (ct : list (string * string)) : list (string * string) :=
  map (fun kv => (kv.1, if is_dummy_tag kv.2 then kv.2 else "c")) ct.





(** The exceptions that Python and pandas raise on the operations of the
    module itself: all but a library's. *)
Definition builtin (e : exn) : Prop :=
  match e with
  | LibraryError _ => False
  | _ => True
  end.

(** A class name that is none of theirs, as [DataError] and
    [EstimationError] are. *)
Definition foreign (cls : string) : Prop :=
  forall e, builtin e -> exn_class e <> cls.

(** No call into the libraries raises an exception of class [cls]. *)
Record never_raises (lib : Collaborators) (cls : string) : Prop := {
  nr_new_linear_model :
    forall e y cs x, ~ raises (new_linear_model lib e y cs x) cls;
  nr_linear_fit : forall m, ~ raises (linear_fit lib m) cls;
  nr_conf_int : forall r c, ~ raises (conf_int lib r c) cls;
  nr_params : forall r c, ~ raises (params lib r c) cls;
  nr_new_Logit : forall y cs x, ~ raises (new_Logit lib y cs x) cls;
  nr_logit_fit : forall m, ~ raises (logit_fit lib m) cls;
  nr_predict : forall r cs x, ~ raises (predict lib r cs x) cls;
  nr_get_dummies : forall x p, ~ raises (get_dummies lib x p) cls;
  nr_NearestNeighbors_fit :
    forall k x, ~ raises (NearestNeighbors_fit lib k x) cls;
  nr_kneighbors : forall n x, ~ raises (kneighbors lib n x) cls
}.

(** A computation that raises no exception of class [cls], in any state. *)
Definition quiet {W A} (cls : string) (m : M W A) : Prop :=
  forall w, ~ raises (m w).1 cls.

(** The cells that [== 0] or [== 1] holds of: the rows that are in one of
    the two groups. *)
Definition in_a_group (c : cell) : bool := cell_eq zero c || cell_eq one c.

(** A cell that holds the number 0 or the number 1. *)
Definition is_flag (c : cell) : Prop := c = Num zero \/ c = Num one.

(* ===================================================================== *)
(** ** Tables used in the examples                                        *)
(* ===================================================================== *)

(** One treated and two control units. *)
Definition one_and_two : DataFrame :=
  table 3 [("Assignment", [1; 0; 0]%Z); ("Start", [10; 10; 10]%Z);
           ("End", [15; 10; 10]%Z)].

(** The same units under other column labels. *)
Definition renamed : DataFrame :=
  table 3 [("Group", [1; 0; 0]%Z); ("Before", [10; 10; 10]%Z);
           ("After", [15; 10; 10]%Z)].

(** No [Start] column. *)
Definition no_start : DataFrame :=
  table 3 [("Assignment", [1; 0; 0]%Z); ("End", [15; 10; 10]%Z)].

(** No control unit. *)
Definition all_treated : DataFrame :=
  table 2 [("Assignment", [1; 1]%Z); ("Start", [10; 10]%Z);
           ("End", [15; 15]%Z)].

(** Three units with an outcome [y] and a confounder [x]. *)
Definition units : DataFrame :=
  table 3 [("assignment", [1; 0; 0]%Z); ("y", [10; 20; 0]%Z);
           ("x", [1; 2; 3]%Z)].

(** Two treated units only, with the scores 0.5 and 0.25. *)
Definition treated_only : DataFrame :=
  setitem (table 2 [("assignment", [1; 1]%Z); ("y", [10; 20]%Z)])
    "propensity score" [Num (decimal 5 1); Num (decimal 25 2)].


(** Four units, one of them in neither group. *)
Definition with_stray : DataFrame :=
  table 4 [("Assignment", [1; 0; 2; 0]%Z); ("Start", [10; 10; 99; 10]%Z);
           ("End", [15; 10; 99; 10]%Z)].

(** A table with columns and no row. *)
Definition no_rows : DataFrame :=
  table 0 [("assignment", []); ("y", []); ("x", [])].


(* ===================================================================== *)
(** * Properties                                                          *)
(* ===================================================================== *)

(** ** Results and frames *)

(** One step of a run: case analysis on the next call that can raise. *)
Ltac run_step :=
  match goal with
  | H : ?r = _ |- context [rbind ?r _] => rewrite H; cbn [rbind]
  | H : ?r = _ |- context [match ?r with Ok _ => _ | Raise _ => _ end] =>
      rewrite H
  | |- context [rbind ?r _] => destruct r eqn:?; cbn [rbind]
  | |- context [match ?r with Ok _ => _ | Raise _ => _ end] =>
      destruct r eqn:?
  end.

Lemma rbind_Ok {A B} (r : result A) (k : A -> result B) b :
  rbind r k = Ok b -> exists a, r = Ok a /\ k a = Ok b.
Proof. destruct r as [a|e]; simpl; [eauto | discriminate]. Qed.

Lemma length_select mask s :
  length mask = length s -> length (select mask s) = count_true mask.
Proof.
  unfold count_true. revert s.
  induction mask as [|b mask IH]; intros [|c s] Hl; simpl in *; try done.
  destruct b; simpl; rewrite IH; auto.
Qed.

Lemma lookup_boolean_index X mask c :
  columns (boolean_index X mask) !! c = select mask <$> columns X !! c.
Proof. unfold boolean_index; simpl. apply lookup_fmap. Qed.

Lemma getitem_Ok X c s : columns X !! c = Some s -> getitem X c = Ok s.
Proof. unfold getitem. by intros ->. Qed.

Lemma getitem_missing X c :
  columns X !! c = None -> getitem X c = Raise (KeyError [c]).
Proof. unfold getitem. by intros ->. Qed.

Lemma getitems_Ok X cs :
  Forall (fun c => is_Some (columns X !! c)) cs ->
  getitems X cs =
  Ok (mkDataFrame (nrows X) (filter (fun kv => kv.1 ∈ cs) (columns X))).
Proof.
  intros H. unfold getitems.
  assert (List.filter (fun c => bool_decide (columns X !! c = None)) cs = [])
    as ->; [|done].
  induction H as [|c cs [s Hs] _ IH]; simpl; [done|].
  rewrite Hs. rewrite bool_decide_eq_false_2 by done. exact IH.
Qed.

Lemma getitem_getitems X (cs : list string) c :
  c ∈ cs ->
  getitem (mkDataFrame (nrows X) (filter (fun kv => kv.1 ∈ cs) (columns X))) c
  = getitem X c.
Proof.
  intros Hc. unfold getitem; simpl.
  destruct (columns X !! c) as [s|] eqn:E.
  - erewrite (proj2 (map_lookup_filter_Some _ _ _ _)); [done|]. by split.
  - rewrite (proj2 (map_lookup_filter_None _ _ _)); [done|]. by left.
Qed.

Lemma getitem_inv X c s : getitem X c = Ok s -> columns X !! c = Some s.
Proof. unfold getitem. destruct (columns X !! c); [congruence|discriminate]. Qed.

Lemma missing_boolean_index X mask cs :
  List.filter (fun c => bool_decide (columns (boolean_index X mask) !! c = None)) cs
  = List.filter (fun c => bool_decide (columns X !! c = None)) cs.
Proof.
  induction cs as [|c cs IH]; [done|]. cbn [List.filter].
  rewrite IH, lookup_boolean_index.
  by destruct (columns X !! c).
Qed.

(** ** The panel of [DifferenceInDifferences] *)

Section Panel.
Import DifferenceInDifferences.

Lemma length_const_col v y : length (const_col v y) = length y.
Proof. apply length_map. Qed.

Lemma block_y y a t : columns (block y a t) !! "y" = Some y.
Proof. reflexivity. Qed.
Lemma block_assignment y a t :
  columns (block y a t) !! "assignment" = Some (const_col a y).
Proof. reflexivity. Qed.
Lemma block_t y a t : columns (block y a t) !! "t" = Some (const_col t y).
Proof. reflexivity. Qed.
Lemma block_nrows y a t : nrows (block y a t) = length y.
Proof. reflexivity. Qed.

Lemma lookup_append X Y c a b :
  columns X !! c = Some a -> columns Y !! c = Some b ->
  columns (append X Y) !! c = Some (a ++ b).
Proof.
  intros Ha Hb. unfold append. cbn [columns].
  rewrite lookup_merge, Ha, Hb. done.
Qed.

Lemma series_mul_const a b l r1 r2 :
  series_mul (const_col a l ++ r1) (const_col b l ++ r2) =
  let? r := series_mul r1 r2 in Ok (const_col (fmul a b) l ++ r).
Proof.
  induction l as [|c l IH]; simpl.
  - by destruct (series_mul r1 r2).
  - rewrite IH. by destruct (series_mul r1 r2).
Qed.

Lemma series_mul_const_nil a b l :
  series_mul (const_col a l) (const_col b l) = Ok (const_col (fmul a b) l).
Proof.
  rewrite <- (app_nil_r (const_col a l)), <- (app_nil_r (const_col b l)).
  rewrite series_mul_const. simpl. by rewrite app_nil_r.
Qed.

Lemma panel_columns X a s e st en asg :
  columns X !! "Assignment" = Some a ->
  columns X !! "Start" = Some s ->
  columns X !! "End" = Some e ->
  let ti := select (map (cell_eq one) a) s in
  let tf := select (map (cell_eq one) a) e in
  let ci := select (map (cell_eq zero) a) s in
  let cf := select (map (cell_eq zero) a) e in
  exists df,
    panel X st en asg = Ok df /\
    nrows df = (length ti + length tf + length ci + length cf)%nat /\
    getitem df "y" = Ok (ti ++ tf ++ ci ++ cf) /\
    getitem df "assignment" =
      Ok (const_col one ti ++ const_col one tf ++ const_col zero ci ++ const_col zero cf) /\
    getitem df "t" =
      Ok (const_col zero ti ++ const_col one tf ++ const_col zero ci ++ const_col one cf) /\
    getitem df "did" =
      Ok (const_col zero ti ++ const_col one tf ++ const_col zero ci ++ const_col zero cf) /\
    getitem df "intercept" =
      Ok (replicate (length ti + length tf + length ci + length cf)
            (Num one)).
Proof.
  intros Ha Hs He ti tf ci cf. unfold panel.
  rewrite (getitem_Ok _ _ _ Ha). cbn [rbind].
  rewrite !getitems_Ok.
  2,3: repeat constructor; rewrite lookup_boolean_index, ?Hs, ?He; eauto.
  cbn [rbind].
  rewrite !getitem_getitems by set_solver.
  unfold getitem at 1 2 3 4. rewrite !lookup_boolean_index, Hs, He. simpl.
  fold ti tf ci cf.
  set (P := append _ (block cf zero one)).
  assert (columns P !! "y" = Some (ti ++ tf ++ ci ++ cf)) as Hy.
  { rewrite !app_assoc. repeat apply lookup_append; apply block_y. }
  assert (columns P !! "assignment" =
          Some (const_col one ti ++ const_col one tf ++ const_col zero ci ++ const_col zero cf))
    as Hasg.
  { rewrite !app_assoc. repeat apply lookup_append; apply block_assignment. }
  assert (columns P !! "t" =
          Some (const_col zero ti ++ const_col one tf ++ const_col zero ci ++ const_col one cf))
    as Ht.
  { rewrite !app_assoc. repeat apply lookup_append; apply block_t. }
  assert (nrows P = (length ti + length tf + length ci + length cf)%nat) as Hn
    by reflexivity.
  rewrite (getitem_Ok _ _ _ Ht), (getitem_Ok _ _ _ Hasg). cbn [rbind].
  rewrite !series_mul_const, series_mul_const_nil. cbn [rbind].
  eexists; split; [reflexivity|].
  unfold setscalar, setitem, getitem; cbn [nrows columns].
  rewrite Hn.
  rewrite lookup_insert_eq, !lookup_insert_ne, lookup_insert_eq by done.
  rewrite Hy, Hasg, Ht. repeat split; reflexivity.
Qed.
Lemma count_true_app m1 m2 :
  count_true (m1 ++ m2) = (count_true m1 + count_true m2)%nat.
Proof. unfold count_true. by rewrite List.filter_app, length_app. Qed.

Lemma count_true_replicate n b :
  count_true (replicate n b) = if b then n else 0%nat.
Proof.
  unfold count_true. induction n as [|n IH]; simpl; [by destruct b|].
  destruct b; simpl in *; by rewrite ?IH.
Qed.

Lemma mask_const_col v w l :
  map (cell_eq w) (const_col v l) = replicate (length l) (feqb v w).
Proof. induction l as [|c l IH]; simpl; by rewrite ?IH. Qed.

Lemma zip_with_andb_replicate n a b r1 r2 :
  zip_with andb (replicate n a ++ r1) (replicate n b ++ r2) =
  replicate n (a && b) ++ zip_with andb r1 r2.
Proof. induction n as [|n IH]; simpl; by rewrite ?IH. Qed.

(** The [did] column is one exactly on the rows where both [assignment] and
    [t] are one. *)
Lemma did_mask (ti tf ci cf : Series) :
  map (cell_eq one)
    (const_col zero ti ++ const_col one tf ++ const_col zero ci ++ const_col zero cf) =
  zip_with andb
    (map (cell_eq one)
       (const_col one ti ++ const_col one tf ++ const_col zero ci ++ const_col zero cf))
    (map (cell_eq one)
       (const_col zero ti ++ const_col one tf ++ const_col zero ci ++ const_col one cf)).
Proof.
  rewrite !map_app, !mask_const_col.
  rewrite !zip_with_andb_replicate.
  assert (forall n a b,
             zip_with andb (replicate n a) (replicate n b)
             = replicate n (a && b)) as ->; [|done].
  intros n a b. induction n as [|n IH]; simpl; by rewrite ?IH.
Qed.

End Panel.

(** ** Exception classes *)

Section Classes.
Context (cls : string) (Hcls : foreign cls).

Lemma not_raises_Ok {A} (a : A) : ~ raises (Ok a) cls.
Proof. intros []. Qed.

Lemma not_raises_builtin {A} e : builtin e -> ~ raises (Raise (A := A) e) cls.
Proof. intros He H. exact (Hcls e He H). Qed.

Lemma not_raises_rbind {A B} (r : result A) (k : A -> result B) :
  ~ raises r cls -> (forall a, ~ raises (k a) cls) -> ~ raises (rbind r k) cls.
Proof. destruct r; simpl; auto. Qed.

Lemma not_raises_rmap {A B} (f : A -> result B) l :
  (forall a, ~ raises (f a) cls) -> ~ raises (rmap f l) cls.
Proof.
  intros Hf. induction l as [|a l IH]; cbn [rmap]; [apply not_raises_Ok|].
  apply not_raises_rbind; [apply Hf|intros b].
  apply not_raises_rbind; [apply IH|intros bs]. apply not_raises_Ok.
Qed.

(** Case analysis down to the calls of the libraries. *)
Ltac silence :=
  repeat first
    [ apply not_raises_Ok
    | apply not_raises_builtin; exact I
    | apply not_raises_rbind; [|intros ?]
    | apply not_raises_rmap; intros ?
    | match goal with
      | |- ~ raises (match ?x with _ => _ end) _ => destruct x
      end ].

Lemma not_raises_getitem X c : ~ raises (getitem X c) cls.
Proof. unfold getitem. silence. Qed.

Lemma not_raises_getitems X cs : ~ raises (getitems X cs) cls.
Proof. unfold getitems. silence. Qed.

Lemma not_raises_as_float c : ~ raises (as_float c) cls.
Proof. unfold as_float. silence. Qed.

Lemma not_raises_series_mul s1 s2 : ~ raises (series_mul s1 s2) cls.
Proof.
  revert s2. induction s1 as [|c1 s1 IH]; intros [|c2 s2]; cbn [series_mul];
    try apply not_raises_Ok.
  apply not_raises_rbind; [apply not_raises_as_float|intros x].
  apply not_raises_rbind; [apply not_raises_as_float|intros y].
  apply not_raises_rbind; [apply IH|intros r]. apply not_raises_Ok.
Qed.

Lemma not_raises_mean lib s : ~ raises (mean lib s) cls.
Proof.
  unfold mean. apply not_raises_rbind.
  - apply not_raises_rmap, not_raises_as_float.
  - intros xs. destruct (_ =? _)%nat; apply not_raises_Ok.
Qed.

Lemma not_raises_loc_setscalar X c v : ~ raises (loc_setscalar X c v) cls.
Proof. unfold loc_setscalar. silence. Qed.

Lemma not_raises_setarray X c s : ~ raises (setarray X c s) cls.
Proof. unfold setarray. silence. Qed.

Lemma not_raises_panel X st en asg :
  ~ raises (DifferenceInDifferences.panel X st en asg) cls.
Proof.
  unfold DifferenceInDifferences.panel.
  repeat first
    [ apply not_raises_Ok
    | apply not_raises_getitem | apply not_raises_getitems
    | apply not_raises_series_mul
    | apply not_raises_rbind; [|intros ?] ].
Qed.

Context (lib : Collaborators) (Hlib : never_raises lib cls).

Lemma not_raises_average_treatment_effect self X st en asg :
  ~ raises
      (DifferenceInDifferences.average_treatment_effect lib self X st en asg)
      cls.
Proof.
  unfold DifferenceInDifferences.average_treatment_effect.
  destruct Hlib.
  repeat first
    [ apply not_raises_Ok
    | apply not_raises_panel
    | apply not_raises_getitem | apply not_raises_getitems
    | apply not_raises_rbind; [|intros ?]
    | done ].
Qed.

Import PropensityScoreMatching.

Lemma not_raises_assign_columns df src cols :
  ~ raises (assign_columns df src cols) cls.
Proof.
  unfold assign_columns.
  apply not_raises_rbind; [apply not_raises_getitems|intros ?].
  apply not_raises_Ok.
Qed.

Lemma not_raises_score_confounders x items df rc :
  ~ raises (score_confounders lib x items df rc) cls.
Proof.
  destruct Hlib.
  revert df rc. induction items as [|[c t] items IH]; intros df rc;
    cbn [score_confounders]; [apply not_raises_Ok|].
  destruct (bool_decide (t = "o") || bool_decide (t = "u")).
  - apply not_raises_rbind; [apply not_raises_getitems|intros xc].
    apply not_raises_rbind; [done|intros [cols dm]].
    destruct (bool_decide (length cols = 1%nat));
      (apply not_raises_rbind; [apply not_raises_assign_columns|intros ?]);
      apply IH.
  - apply not_raises_rbind; [apply not_raises_getitem|intros ?].
    apply not_raises_rbind; [apply not_raises_getitem|intros ?].
    apply IH.
Qed.

Lemma quiet_ret {A} (a : A) : quiet cls (ret (W := world lib) a).
Proof. intros w. apply not_raises_Ok. Qed.
Lemma quiet_lift {A} (r : result A) :
  ~ raises r cls -> quiet cls (lift (W := world lib) r).
Proof. by intros H w. Qed.
Lemma quiet_load l : quiet cls (load lib l).
Proof. intros w. apply not_raises_Ok. Qed.
Lemma quiet_store l x : quiet cls (store lib l x).
Proof. intros w. apply not_raises_Ok. Qed.
Lemma quiet_new x : quiet cls (new lib x).
Proof. intros w. apply not_raises_Ok. Qed.
Lemma quiet_set_model m : quiet cls (set_propensity_score_model lib m).
Proof. intros w. apply not_raises_Ok. Qed.
Lemma quiet_bind {A B} (m : M (world lib) A) (k : A -> M (world lib) B) :
  quiet cls m -> (forall a, quiet cls (k a)) -> quiet cls (bind m k).
Proof.
  intros Hm Hk w. unfold bind. specialize (Hm w).
  destruct (m w) as [[a|e] w1]; simpl in *; [apply Hk|done].
Qed.

Ltac hush :=
  repeat first
    [ apply quiet_ret | apply quiet_load | apply quiet_store | apply quiet_new
    | apply quiet_set_model
    | apply quiet_bind; [|intros ?]
    | apply quiet_lift
    | apply not_raises_Ok
    | apply not_raises_getitem | apply not_raises_getitems
    | apply not_raises_setarray | apply not_raises_score_confounders
    | apply not_raises_loc_setscalar
    | apply not_raises_rmap; intros ?
    | apply not_raises_rbind; [|intros ?]
    | match goal with
      | |- quiet _ (let '(_, _) := ?p in _) => destruct p
      | |- quiet _ (if ?b then _ else _) => destruct b
      | |- ~ raises (if ?b then _ else _) _ => destruct b
      end
    | done ].

Lemma quiet_score X ct a s i : quiet cls (score lib X ct a s i).
Proof. destruct Hlib. unfold score. hush. Qed.

Lemma quiet_match X a sc n : quiet cls (match_ lib X a sc n).
Proof. destruct Hlib. unfold match_. hush. Qed.

End Classes.

Lemma foreign_DataError : foreign "DataError".
Proof. intros [] He; try discriminate. destruct He. Qed.

Lemma foreign_EstimationError : foreign "EstimationError".
Proof. intros [] He; try discriminate. destruct He. Qed.

(** The stand-in raises nothing but [ValueError]. *)
Lemma standin_never_raises cls : foreign cls -> never_raises Standin.lib cls.
Proof.
  intros Hcls. constructor; simpl; intros; try (intros []; fail).
  - unfold Standin.fit_neighbors.
    repeat case_match; first [exact (Hcls ValueError I)|intros []].
  - unfold Standin.nearest.
    repeat case_match; first [exact (Hcls ValueError I)|intros []].
Qed.

(** ** Claims on [DifferenceInDifferences] *)

Section DiD_claims.
Import DifferenceInDifferences.

(** C1. [average_treatment_effect] accepts [start], [end] and [assignment]
    and never reads them: it indexes the table with the literals
    ['Assignment'], ['Start'] and ['End']. So a table whose columns carry
    other labels, passed with those labels, is refused with a [KeyError] on
    ['Assignment'] whatever the libraries are, while the same data under
    the default labels is estimated; and the result never depends on the
    three label arguments. *)
Theorem average_treatment_effect_reads_literal_labels :
  (forall lib self,
      average_treatment_effect lib self renamed "Before" "After" "Group"
      = Raise (KeyError ["Assignment"])) /\
  average_treatment_effect Standin.lib (init false) one_and_two
    "Start" "End" "Assignment" = Ok (of_Z 5, of_Z 5, of_Z 5) /\
  (forall lib self X st en asg,
      average_treatment_effect lib self X st en asg
      = average_treatment_effect lib self X "Start" "End" "Assignment").
Proof.
  split; [|split].
  - intros lib self. reflexivity.
  - vm_compute. reflexivity.
  - intros. reflexivity.
Qed.

(** C3, as stated, fails: with one treated and two control rows the panel
    has six rows and a single row with [did = 1], which is not a quarter of
    them. *)
Lemma panel_quarter_counterexample :
  exists df did,
    panel one_and_two "Start" "End" "Assignment" = Ok df /\
    getitem df "did" = Ok did /\
    nrows df = 6%nat /\
    count_true (map (cell_eq one) did) = 1%nat /\
    (4 * count_true (map (cell_eq one) did))%nat <> nrows df.
Proof.
  eexists _, _. split; [vm_compute; reflexivity|].
  split; [vm_compute; reflexivity|].
  repeat split. vm_compute. discriminate.
Qed.

(** C3, amended. For a table with [t] treated rows ([Assignment = 1]) and
    [c] control rows ([Assignment = 0]), the panel built inside
    [average_treatment_effect] has [2 * (t + c)] rows, exactly [t] of them
    have [did = 1] (a quarter of the rows exactly when [t = c]), and a row
    has [did = 1] if and only if it has [assignment = 1] and [t = 1]. *)
Theorem panel_shape X st en asg (t c : nat) :
  wf_frame X ->
  count_eq X "Assignment" one = Ok t ->
  count_eq X "Assignment" zero = Ok c ->
  is_Some (columns X !! "Start") ->
  is_Some (columns X !! "End") ->
  exists df a tt did,
    panel X st en asg = Ok df /\
    nrows df = (2 * (t + c))%nat /\
    getitem df "assignment" = Ok a /\
    getitem df "t" = Ok tt /\
    getitem df "did" = Ok did /\
    length did = (2 * (t + c))%nat /\
    count_true (map (cell_eq one) did) = t /\
    (4 * count_true (map (cell_eq one) did) = nrows df <-> t = c)%nat /\
    forall i,
      cell_eq one <$> did !! i = Some true <->
      cell_eq one <$> a !! i = Some true /\ cell_eq one <$> tt !! i = Some true.
Proof.
  intros Hwf Ht Hc [s Hs] [e He].
  unfold count_eq, getitem in Ht, Hc.
  destruct (columns X !! "Assignment") as [a|] eqn:Ha; [|discriminate].
  simpl in Ht, Hc. injection Ht as Ht. injection Hc as Hc.
  destruct (panel_columns X a s e st en asg Ha Hs He)
    as (df & Hp & Hn & _ & Hasg & Htt & Hdid & _).
  assert (length a = nrows X) as La by exact (Hwf _ _ Ha).
  assert (length s = nrows X) as Ls by exact (Hwf _ _ Hs).
  assert (length e = nrows X) as Le by exact (Hwf _ _ He).
  rewrite !length_select in Hn by (rewrite length_map; congruence).
  rewrite Ht, Hc in Hn.
  exists df; do 3 eexists.
  split; [exact Hp|]. split; [lia|].
  split; [exact Hasg|]. split; [exact Htt|]. split; [exact Hdid|].
  assert (count_true
            (map (cell_eq one)
               (const_col zero (select (map (cell_eq one) a) s) ++
                const_col one (select (map (cell_eq one) a) e) ++
                const_col zero (select (map (cell_eq zero) a) s) ++
                const_col zero (select (map (cell_eq zero) a) e))) = t) as Hcount.
  { rewrite !map_app, !mask_const_col, !count_true_app, !count_true_replicate.
    simpl. rewrite length_select by (rewrite length_map; congruence). lia. }
  split.
  { rewrite !length_app, !length_const_col.
    rewrite !length_select by (rewrite length_map; congruence). lia. }
  split; [exact Hcount|].
  split; [rewrite Hcount; lia|].
  intros i. rewrite <- !list_lookup_fmap.
  change (fmap (M := list) (cell_eq one)) with (map (cell_eq one)).
  rewrite did_mask, lookup_zip_with.
  set (ma := map (cell_eq one) _ !! i). set (mt := map (cell_eq one) _ !! i).
  destruct ma as [[]|], mt as [[]|]; simpl; intuition discriminate.
Qed.

(** [panel_shape] on one treated and two control units. *)
Lemma panel_shape_witness :
  exists df a tt did,
    panel one_and_two "Start" "End" "Assignment" = Ok df /\
    nrows df = (2 * (1 + 2))%nat /\
    getitem df "assignment" = Ok a /\
    getitem df "t" = Ok tt /\
    getitem df "did" = Ok did /\
    length did = (2 * (1 + 2))%nat /\
    count_true (map (cell_eq one) did) = 1%nat /\
    (4 * count_true (map (cell_eq one) did) = nrows df <-> 1 = 2)%nat /\
    forall i,
      cell_eq one <$> did !! i = Some true <->
      cell_eq one <$> a !! i = Some true /\ cell_eq one <$> tt !! i = Some true.
Proof.
  apply (panel_shape one_and_two "Start" "End" "Assignment" 1 2).
  - unfold wf_frame, one_and_two, table; simpl.
    repeat apply map_Forall_insert_2; try reflexivity.
    apply map_Forall_empty.
  - reflexivity.
  - reflexivity.
  - eexists; reflexivity.
  - eexists; reflexivity.
Defined.

(** C5, as stated, fails: a table without its [Start] column is refused
    with a [KeyError], not a [DataError], and a table with no control unit
    is not refused at all (here the stand-in regression returns). *)
Lemma average_treatment_effect_no_DataError :
  average_treatment_effect Standin.lib (init true) no_start
    "Start" "End" "Assignment" = Raise (KeyError ["Start"]) /\
  ~ raises (average_treatment_effect Standin.lib (init true) no_start
              "Start" "End" "Assignment") "DataError" /\
  exists r,
    average_treatment_effect Standin.lib (init true) all_treated
      "Start" "End" "Assignment" = Ok r.
Proof.
  split; [vm_compute; reflexivity|].
  split; [intros H; vm_compute in H; discriminate H|].
  eexists. vm_compute. reflexivity.
Qed.

(** C5, amended. [average_treatment_effect] raises a [KeyError] naming the
    column when the table lacks ['Assignment'], and one naming the missing
    ones of ['Start'] and ['End'] when it lacks those. It does not look at
    the sizes of the four partitions: whenever the three columns are
    there, the panel is built and handed to the configured regression, and
    the outcome of the call is the outcome of the regression, so an
    exception of the regression reaches the caller as it was raised. No
    [DataError] or [EstimationError] is constructed: the call raises an
    exception of a class that is not one of Python's own only if the
    regression raised it. *)
Theorem average_treatment_effect_errors lib self X st en asg :
  (columns X !! "Assignment" = None ->
   average_treatment_effect lib self X st en asg
   = Raise (KeyError ["Assignment"])) /\
  (is_Some (columns X !! "Assignment") ->
   columns X !! "Start" = None \/ columns X !! "End" = None ->
   average_treatment_effect lib self X st en asg
   = Raise (KeyError
              (List.filter (fun c => bool_decide (columns X !! c = None))
                 ["Start"; "End"]))) /\
  (is_Some (columns X !! "Assignment") ->
   is_Some (columns X !! "Start") ->
   is_Some (columns X !! "End") ->
   exists df y exog,
     panel X st en asg = Ok df /\
     getitem df "y" = Ok y /\
     getitems df ["t"; "assignment"; "did"; "intercept"] = Ok exog /\
     average_treatment_effect lib self X st en asg =
     (let? m := new_linear_model lib (model self) y
                  ["t"; "assignment"; "did"; "intercept"] exog in
      let? result := linear_fit lib m in
      let? ci := conf_int lib result "did" in
      let? expected := params lib result "did" in
      Ok (ci.1, expected, ci.2))) /\
  (forall cls,
      foreign cls -> never_raises lib cls ->
      ~ raises (average_treatment_effect lib self X st en asg) cls).
Proof.
  split; [|split; [|split]].
  4: { intros cls Hcls Hlib.
       by apply not_raises_average_treatment_effect. }
  - intros Ha. unfold average_treatment_effect, panel.
    by rewrite (getitem_missing _ _ Ha).
  - intros [a Ha] Hm. unfold average_treatment_effect, panel.
    rewrite (getitem_Ok _ _ _ Ha). cbn [rbind].
    unfold getitems at 1. rewrite missing_boolean_index.
    destruct Hm as [Hm|Hm]; simpl; rewrite Hm; simpl;
      [done | by destruct (columns X !! "Start")].
  - intros [a Ha] [s Hs] [e He].
    destruct (panel_columns X a s e st en asg Ha Hs He)
      as (df & Hp & Hn & Hy & Hasg & Htt & Hdid & Hi).
    exists df. do 2 eexists.
    split; [exact Hp|]. split; [exact Hy|].
    pose proof (getitems_Ok df ["t"; "assignment"; "did"; "intercept"]) as Hx.
    rewrite Hx by (repeat constructor; eexists; by apply getitem_inv).
    split; [reflexivity|]. clear Hx.
    pose proof (getitems_Ok df ["t"; "assignment"; "did"; "intercept"]) as Hx.
    unfold average_treatment_effect. rewrite Hp. cbn [rbind].
    rewrite Hy. cbn [rbind].
    rewrite Hx by (repeat constructor; eexists; by apply getitem_inv).
    reflexivity.
Qed.

(** [average_treatment_effect_errors] on a table without [Assignment], on
    one without [Start], and on one with no control unit. *)
Lemma average_treatment_effect_errors_witness :
  average_treatment_effect Standin.lib (init true) renamed
    "Start" "End" "Assignment" = Raise (KeyError ["Assignment"]) /\
  average_treatment_effect Standin.lib (init true) no_start
    "Start" "End" "Assignment" = Raise (KeyError ["Start"]) /\
  (exists df y exog,
    panel all_treated "Start" "End" "Assignment" = Ok df /\
    getitem df "y" = Ok y /\
    getitems df ["t"; "assignment"; "did"; "intercept"] = Ok exog /\
    average_treatment_effect Standin.lib (init true) all_treated
      "Start" "End" "Assignment" =
    (let? m := new_linear_model Standin.lib (model (init true)) y
                 ["t"; "assignment"; "did"; "intercept"] exog in
     let? result := linear_fit Standin.lib m in
     let? ci := conf_int Standin.lib result "did" in
     let? expected := params Standin.lib result "did" in
     Ok (ci.1, expected, ci.2))) /\
  ~ raises (average_treatment_effect Standin.lib (init true) no_start
              "Start" "End" "Assignment") "EstimationError".
Proof.
  split; [|split; [|split]].
  4: { apply (proj2 (proj2 (proj2 (average_treatment_effect_errors Standin.lib
                           (init true) no_start "Start" "End" "Assignment")))).
       - exact foreign_EstimationError.
       - exact (standin_never_raises _ foreign_EstimationError). }
  - apply (proj1 (average_treatment_effect_errors Standin.lib (init true)
                    renamed "Start" "End" "Assignment")).
    reflexivity.
  - apply (proj1 (proj2 (average_treatment_effect_errors Standin.lib
                           (init true) no_start "Start" "End" "Assignment"))).
    + eexists; reflexivity.
    + left; reflexivity.
  - apply (proj1 (proj2 (proj2 (average_treatment_effect_errors Standin.lib
                           (init true) all_treated "Start" "End" "Assignment"))));
      eexists; reflexivity.
Defined.

End DiD_claims.

(** ** [score] *)

Section Score.
Import PropensityScoreMatching.
Context (lib : Collaborators).

Lemma score_run X ct a s i w :
  score lib X ct a s i w =
  match score_fit lib (frames lib w X) ct a i with
  | Raise e => (Raise e, w)
  | Ok (m, df, rc) =>
      let w1 := if s then with_model lib w m else w in
      match score_table lib (frames lib w X) m df rc with
      | Raise e => (Raise e, w1)
      | Ok x' => (Ok X, with_frame lib w1 X x')
      end
  end.
Proof.
  unfold score, score_fit, score_table, bind, load, lift, ret.
  destruct (getitems (frames lib w X) [a]) as [df|e]; [|done]. cbn [rbind].
  destruct (score_confounders lib (frames lib w X) ct df []) as [[df' rc]|e];
    [|done]. cbn [rbind].
  destruct i.
  - destruct (loc_setscalar df' "intercept" (Num one)) as [df''|e];
      cbn [rbind]; [|done].
    repeat run_step; try done.
    all: destruct s; simpl; repeat run_step; done.
  - cbn [rbind]. repeat run_step; try done.
    all: destruct s; simpl; repeat run_step; done.
Qed.

Lemma score_confounders_as_continuous x ct df rc :
  score_confounders lib x (as_continuous ct) df rc
  = score_confounders lib x ct df rc.
Proof.
  revert df rc. induction ct as [|[c t] ct IH]; intros df rc; [done|].
  cbn [as_continuous map score_confounders fst snd].
  fold (as_continuous ct). unfold is_dummy_tag.
  destruct (bool_decide (t = "o") || bool_decide (t = "u")) eqn:E.
  - rewrite E. repeat run_step; try done.
    destruct a0 as [cols dm].
    destruct (bool_decide (length cols = 1%nat)); run_step; try done; apply IH.
  - change (bool_decide ("c" = "o") || bool_decide ("c" = "u")) with false.
    cbn iota. repeat run_step; auto.
Qed.

Lemma keeps_ret {A} (a : A) : keeps_model lib (ret a).
Proof. by intros w. Qed.
Lemma keeps_lift {A} (r : result A) : keeps_model lib (lift r).
Proof. by intros w. Qed.
Lemma keeps_load l : keeps_model lib (load lib l).
Proof. by intros w. Qed.
Lemma keeps_store l x : keeps_model lib (store lib l x).
Proof. by intros w. Qed.
Lemma keeps_new x : keeps_model lib (new lib x).
Proof. by intros w. Qed.
Lemma keeps_bind {A B} (m : M (world lib) A) (k : A -> M (world lib) B) :
  keeps_model lib m -> (forall a, keeps_model lib (k a)) -> keeps_model lib (bind m k).
Proof.
  intros Hm Hk w. unfold bind. specialize (Hm w).
  destruct (m w) as [[a|e] w1]; simpl in *; [|done].
  by rewrite Hk.
Qed.

Ltac keeps :=
  repeat first
    [ apply keeps_ret | apply keeps_lift | apply keeps_load
    | apply keeps_store | apply keeps_new
    | apply keeps_bind; [|intros ?]
    | match goal with
      | |- keeps_model _ (let '(_, _) := ?p in _) => destruct p
      | |- keeps_model _ (if ?b then _ else _) => destruct b
      end ].

Lemma keeps_score X ct a i : keeps_model lib (score lib X ct a false i).
Proof. unfold score. keeps. Qed.

Lemma keeps_match X a sc n : keeps_model lib (match_ lib X a sc n).
Proof. unfold match_. keeps. Qed.

Lemma keeps_estimate_treatments t c o :
  keeps_model lib (estimate_treatments lib t c o).
Proof. unfold estimate_treatments. keeps. Qed.

Lemma keeps_estimate_ATT X a o ct n :
  keeps_model lib (estimate_ATT lib X a o ct n).
Proof.
  unfold estimate_ATT.
  apply keeps_bind; [apply keeps_score|intros ?].
  apply keeps_bind; [apply keeps_match|intros [? ?]].
  apply keeps_bind; [apply keeps_estimate_treatments|intros ?].
  keeps.
Qed.

Lemma keeps_estimate_ATC X a o ct n :
  keeps_model lib (estimate_ATC lib X a o ct n).
Proof.
  unfold estimate_ATC.
  do 7 (apply keeps_bind; [keeps|intros ?]).
  apply keeps_bind; [apply keeps_estimate_ATT|intros ?]. keeps.
Qed.

Lemma keeps_estimate_ATE X a o ct n :
  keeps_model lib (estimate_ATE lib X a o ct n).
Proof.
  unfold estimate_ATE.
  apply keeps_bind; [apply keeps_estimate_ATT|intros ?].
  apply keeps_bind; [apply keeps_estimate_ATC|intros ?].
  keeps.
Qed.

End Score.

(** ** Claims on [score] *)

Section Score_claims.
Import PropensityScoreMatching.

(** C6, as stated, fails: a confounder tagged with a string that is no type
    tag at all is accepted: [score] returns, as it does for the tag ['c'],
    and leaves the same table. *)
Lemma score_accepts_unrecognized_tag :
  (score Standin.lib 0%nat [("x", "bogus")] "assignment" false true
     (world_of Standin.lib units)).1 = Ok 0%nat /\
  ~ raises (score Standin.lib 0%nat [("x", "bogus")] "assignment" false true
              (world_of Standin.lib units)).1 "DataError" /\
  frames _ (score Standin.lib 0%nat [("x", "bogus")] "assignment" false true
              (world_of Standin.lib units)).2 0%nat
  = frames _ (score Standin.lib 0%nat [("x", "c")] "assignment" false true
                (world_of Standin.lib units)).2 0%nat.
Proof.
  split; [vm_compute; reflexivity|].
  split; [intros H; vm_compute in H; destruct H|].
  vm_compute; reflexivity.
Qed.

(** C6, amended. [score] compares a type tag with ['o'] and ['u'] and with
    nothing else: a confounder with any other tag, ['c'], ['d'] or a string
    that is no tag, is passed to the regression as it is, so the call does
    exactly what it does when each such tag is replaced by ['c']. No
    [DataError] is raised for a tag: [score] raises an exception of a
    class that is not one of Python's own only if a library raised it. *)
Theorem score_reads_tags_as_dummy_or_not lib X ct a s i w :
  score lib X ct a s i w = score lib X (as_continuous ct) a s i w /\
  (forall cls,
      foreign cls -> never_raises lib cls ->
      ~ raises (score lib X ct a s i w).1 cls).
Proof.
  split.
  - rewrite !score_run. unfold score_fit.
    destruct (getitems (frames lib w X) [a]); [|done]. cbn [rbind].
    by rewrite score_confounders_as_continuous.
  - intros cls Hcls Hlib. by apply quiet_score.
Qed.

(** [score_reads_tags_as_dummy_or_not] on a tag that is no tag. *)
Lemma score_reads_tags_as_dummy_or_not_witness :
  (score Standin.lib 0%nat [("x", "bogus")] "assignment" false true
     (world_of Standin.lib units)).1 = Ok 0%nat /\
  ~ raises (score Standin.lib 0%nat [("x", "bogus")] "assignment" false true
              (world_of Standin.lib units)).1 "DataError".
Proof.
  split; [vm_compute; reflexivity|].
  apply (proj2 (score_reads_tags_as_dummy_or_not Standin.lib 0%nat
                  [("x", "bogus")] "assignment" false true
                  (world_of Standin.lib units))).
  - exact foreign_DataError.
  - exact (standin_never_raises _ foreign_DataError).
Defined.

(** C8, as stated, fails: after [score] the caller's table, which had no
    ['propensity score'] column, has one, and the reference returned is the
    one that was passed. *)
Lemma score_mutates_its_argument :
  columns (frames _ (world_of Standin.lib units) 0%nat) !! "propensity score"
  = None /\
  (score Standin.lib 0%nat [("x", "c")] "assignment" false true
     (world_of Standin.lib units)).1 = Ok 0%nat /\
  columns (frames _ (score Standin.lib 0%nat [("x", "c")] "assignment" false
                       true (world_of Standin.lib units)).2 0%nat)
    !! "propensity score"
  = Some [Num (decimal 75 2); Num (decimal 8333333333333333 16);
          Num (decimal 875 3)].
Proof. repeat split; vm_compute; reflexivity. Qed.

(** C8, amended. [score] writes the ['propensity score'] column into the
    table object that the caller passed, in place, and returns that same
    object: after a call that returns, the caller's table is what it was
    with that one column added or replaced, by one score per row. No other
    table is changed, and a call that raises changes no table. *)
Theorem score_writes_in_place lib X ct a s i w :
  (forall l,
      (score lib X ct a s i w).1 = Ok l ->
      l = X /\
      exists scores,
        length scores = nrows (frames lib w X) /\
        frames lib (score lib X ct a s i w).2 X
        = setitem (frames lib w X) "propensity score" scores) /\
  (forall e,
      (score lib X ct a s i w).1 = Raise e ->
      frames lib (score lib X ct a s i w).2 X = frames lib w X) /\
  (forall l, l <> X ->
      frames lib (score lib X ct a s i w).2 l = frames lib w l).
Proof.
  rewrite score_run.
  destruct (score_fit lib (frames lib w X) ct a i) as [[[m df] rc]|e0];
    [|by repeat split].
  cbn zeta.
  destruct (score_table lib (frames lib w X) m df rc) as [x'|e0] eqn:Ht.
  - repeat split.
    + cbn in *; congruence.
    + unfold score_table in Ht.
      repeat (apply rbind_Ok in Ht as (? & ? & Ht)).
      unfold setarray in Ht. case_decide; [|discriminate].
      injection Ht as <-. eexists; split; [eassumption|].
      destruct s; cbn; by rewrite fn_lookup_insert.
    + discriminate.
    + intros l Hl. destruct s; cbn; by rewrite fn_lookup_insert_ne.
  - repeat split; try discriminate; by destruct s.
Qed.

(** [score_writes_in_place] on [units]. *)
Lemma score_writes_in_place_witness :
  exists scores,
    length scores = nrows units /\
    frames _ (score Standin.lib 0%nat [("x", "c")] "assignment" false true
                (world_of Standin.lib units)).2 0%nat
    = setitem units "propensity score" scores.
Proof.
  apply (proj1 (score_writes_in_place Standin.lib 0%nat [("x", "c")]
                  "assignment" false true (world_of Standin.lib units)) 0%nat).
  vm_compute. reflexivity.
Defined.

(** C10. A call of [score] with [store_model_fit] false does not write the
    attribute [propensity_score_model], and neither do [estimate_ATT],
    [estimate_ATC] and [estimate_ATE], which call it that way: after the
    call, returned or raised, the attribute is what it was before. A new
    object has it at [None]. *)
Theorem default_score_keeps_propensity_score_model lib X ct a o i n w :
  propensity_score_model lib (score lib X ct a false i w).2
  = propensity_score_model lib w /\
  propensity_score_model lib (estimate_ATT lib X a o ct n w).2
  = propensity_score_model lib w /\
  propensity_score_model lib (estimate_ATC lib X a o ct n w).2
  = propensity_score_model lib w /\
  propensity_score_model lib (estimate_ATE lib X a o ct n w).2
  = propensity_score_model lib w /\
  propensity_score_model lib (init lib w) = None.
Proof.
  split; [apply keeps_score|].
  split; [apply keeps_estimate_ATT|].
  split; [apply keeps_estimate_ATC|].
  split; [apply keeps_estimate_ATE|reflexivity].
Qed.

End Score_claims.

(** ** [match] and [estimate_treatments] *)

Section Match.
Import PropensityScoreMatching.
Context (lib : Collaborators).

Lemma extends_refl X w : extends lib X w w.
Proof. repeat split; auto. Qed.

Lemma extends_trans X w1 w2 w3 :
  extends lib X w1 w2 -> extends lib X w2 w3 -> extends lib X w1 w3.
Proof.
  intros (Hn1 & Hm1 & Hf1) (Hn2 & Hm2 & Hf2). repeat split.
  - lia.
  - congruence.
  - intros l Hl Hx. rewrite Hf2 by (auto; lia). auto.
Qed.

Ltac heap_step :=
  first [ rewrite fn_lookup_insert
        | rewrite fn_lookup_insert_ne by lia
        | run_step ].

Lemma match_run_Raise X a sc n w e :
  (X < next_loc lib w)%nat ->
  match_frames lib (frames lib w X) a sc n = Raise e ->
  (match_ lib X a sc n w).1 = Raise e.
Proof.
  intros HX. unfold match_, match_frames, bind, load, lift, new, store, ret.
  cbn [frames next_loc propensity_score_model].
  repeat heap_step; cbn [fst]; congruence.
Qed.

Lemma match_run_Ok X a sc n w t c :
  (X < next_loc lib w)%nat ->
  match_frames lib (frames lib w X) a sc n = Ok (t, c) ->
  exists w',
    match_ lib X a sc n w = (Ok (next_loc lib w, S (next_loc lib w)), w') /\
    extends lib (next_loc lib w) w w' /\
    next_loc lib w' = S (S (next_loc lib w)) /\
    frames lib w' (next_loc lib w) = t /\
    frames lib w' (S (next_loc lib w)) = c.
Proof.
  intros HX. unfold match_, match_frames, bind, load, lift, new, store, ret.
  cbn [frames next_loc propensity_score_model].
  repeat heap_step; try discriminate.
  intros [= <- <-]. eexists. split; [reflexivity|].
  unfold extends. cbn [frames next_loc propensity_score_model].
  repeat split; try lia.
  - intros l Hl _. by rewrite !fn_lookup_insert_ne by lia.
  - by rewrite fn_lookup_insert.
  - by rewrite fn_lookup_insert_ne, fn_lookup_insert by lia.
Qed.

End Match.

(** ** Claims on [match] and [calculate_balance] *)

Section Match_claims.
Import PropensityScoreMatching.

(** C7, as stated, fails: on a table with no control row the exception is
    the one of the nearest-neighbour library (here a [ValueError], as
    scikit-learn raises on an empty sample), not a [DataError]. *)
Lemma match_empty_control_no_DataError :
  (match_ Standin.lib 0%nat "assignment" "propensity score" 2
     (world_of Standin.lib treated_only)).1 = Raise ValueError /\
  ~ raises (match_ Standin.lib 0%nat "assignment" "propensity score" 2
              (world_of Standin.lib treated_only)).1 "DataError".
Proof.
  split; [vm_compute; reflexivity|].
  intros H; vm_compute in H; discriminate H.
Qed.

(** C7, amended. [match] does not test whether the control subset is
    empty. The scores of the control rows, however many, are handed to
    [NearestNeighbors.fit]: an exception raised there reaches the caller as
    it was raised, and when the library answers, for the fit and for every
    treated row, [match] returns the treated rows with their matches and
    the control rows unchanged. No [DataError] is constructed: [match]
    raises an exception of a class that is not one of Python's own only if
    the library raised it. *)
Theorem match_hands_control_to_neighbors lib X a sc n w col values :
  (X < next_loc lib w)%nat ->
  getitem (frames lib w X) a = Ok col ->
  getitems (boolean_index (frames lib w X) (map (cell_eq zero) col)) [sc]
  = Ok values ->
  (forall e,
      NearestNeighbors_fit lib n values = Raise e ->
      (match_ lib X a sc n w).1 = Raise e) /\
  (forall ns s m,
      NearestNeighbors_fit lib n values = Ok ns ->
      getitem (boolean_index (frames lib w X) (map (cell_eq one) col)) sc = Ok s ->
      rmap (fun x => let? ix := kneighbors lib ns x in Ok (Matches ix)) s
      = Ok m ->
      exists w',
        match_ lib X a sc n w
        = (Ok (next_loc lib w, S (next_loc lib w)), w') /\
        frames lib w' (next_loc lib w)
        = setitem (boolean_index (frames lib w X) (map (cell_eq one) col))
            "matches" m /\
        frames lib w' (S (next_loc lib w))
        = boolean_index (frames lib w X) (map (cell_eq zero) col)) /\
  (forall cls,
      foreign cls -> never_raises lib cls ->
      ~ raises (match_ lib X a sc n w).1 cls).
Proof.
  intros HX Ha Hv. split; [|split].
  3: { intros cls Hcls Hlib. by apply quiet_match. }
  - intros e He. apply match_run_Raise; [done|].
    unfold match_frames. rewrite Ha. cbn [rbind]. rewrite Hv. cbn [rbind].
    by rewrite He.
  - intros ns s m Hns Hs Hm.
    destruct (match_run_Ok lib X a sc n w
                (setitem (boolean_index (frames lib w X) (map (cell_eq one) col))
                   "matches" m)
                (boolean_index (frames lib w X) (map (cell_eq zero) col)) HX)
      as (w' & Hrun & _ & _ & Ht & Hc).
    { unfold match_frames. rewrite Ha. cbn [rbind]. rewrite Hv. cbn [rbind].
      rewrite Hns. cbn [rbind]. rewrite Hs. cbn [rbind]. by rewrite Hm. }
    exists w'. by repeat split.
Qed.

(** [match_hands_control_to_neighbors] on a table with no control row. *)
Lemma match_hands_control_to_neighbors_witness :
  (match_ Standin.lib 0%nat "assignment" "propensity score" 2
     (world_of Standin.lib treated_only)).1 = Raise ValueError.
Proof.
  refine (proj1 (match_hands_control_to_neighbors Standin.lib 0%nat
                   "assignment" "propensity score" 2
                   (world_of Standin.lib treated_only) _ _ _ _ _)
            ValueError _).
  - simpl. lia.
  - reflexivity.
  - reflexivity.
  - vm_compute. reflexivity.
Defined.

(** C9. [calculate_balance] never returns: the module does not bind the
    name [np], so once the numerator is computed the reference to
    [np.sqrt] raises a [NameError]; a call that fails earlier fails on a
    missing column. On [units], with the confounder [x] and the group
    column [assignment], both column means exist and the call raises
    [NameError: np]. *)
Theorem calculate_balance_never_returns :
  (forall lib X x d w v, (calculate_balance lib X x d w).1 <> Ok v) /\
  (forall lib X x d w m1 m0,
      frame_mean_at lib
        (boolean_index (frames lib w X)
           (map (cell_eq one) (default [] (columns (frames lib w X) !! d)))) x
      = Ok m1 ->
      frame_mean_at lib
        (boolean_index (frames lib w X)
           (map (cell_eq zero) (default [] (columns (frames lib w X) !! d)))) x
      = Ok m0 ->
      is_Some (columns (frames lib w X) !! d) ->
      (calculate_balance lib X x d w).1 = Raise (NameError "np")) /\
  (forall lib,
      (calculate_balance lib 0%nat "x" "assignment" (world_of lib units)).1
      = Raise (NameError "np")).
Proof.
  split; [|split].
  - intros lib X x d w v.
    unfold calculate_balance, bind, load, lift, ret.
    change (global "np") with (Raise (A := unit) (NameError "np")).
    repeat run_step; cbn [fst]; discriminate.
  - intros lib X x d w m1 m0 H1 H0 [col Hcol].
    rewrite Hcol in H1, H0. simpl in H1, H0.
    unfold calculate_balance, bind, load, lift, ret.
    rewrite (getitem_Ok _ _ _ Hcol), H1, H0. reflexivity.
  - intros lib. reflexivity.
Qed.

End Match_claims.

(** ** The estimates, as functions of the content of [X] *)

Section Estimates.
Import PropensityScoreMatching.
Context (lib : Collaborators).

Lemma estimate_treatments_run T C o w :
  estimate_treatments lib T C o w =
  match control_outcomes (frames lib w T) (frames lib w C) o with
  | Ok t' => (Ok T, with_frame lib w T t')
  | Raise e => (Raise e, w)
  end.
Proof.
  unfold estimate_treatments, control_outcomes, bind, load, lift, store, ret.
  repeat run_step; done.
Qed.

Lemma score_run_default X ct a w :
  score lib X ct a false true w =
  match scored lib (frames lib w X) ct a with
  | Ok x1 => (Ok X, with_frame lib w X x1)
  | Raise e => (Raise e, w)
  end.
Proof.
  rewrite score_run. unfold scored.
  destruct (score_fit lib (frames lib w X) ct a true) as [[[m df] rc]|e];
    cbn [rbind]; [|done].
  by destruct (score_table lib (frames lib w X) m df rc).
Qed.

Lemma scored_inv x ct a x1 :
  scored lib x ct a = Ok x1 ->
  exists scores, length scores = nrows x /\
                 x1 = setitem x "propensity score" scores.
Proof.
  unfold scored, score_table. intros H.
  apply rbind_Ok in H as ([[m df] rc] & _ & H).
  repeat (apply rbind_Ok in H as (? & ? & H)).
  unfold setarray in H. case_decide; [|discriminate].
  injection H as <-. eauto.
Qed.

Lemma bind_Ok {W A B} (m : M W A) (k : A -> M W B) w a w1 :
  m w = (Ok a, w1) -> bind m k w = k a w1.
Proof. unfold bind. by intros ->. Qed.

Lemma bind_Raise {W A B} (m : M W A) (k : A -> M W B) w e :
  (m w).1 = Raise e -> exists w', bind m k w = (Raise e, w').
Proof.
  unfold bind. destruct (m w) as [[a|e'] w']; cbn; [discriminate|].
  intros [= ->]. eauto.
Qed.

(** A run of [estimate_ATT]: its answer, and what it leaves behind when it
    returns. *)
Lemma estimate_ATT_run X a o ct n w :
  (X < next_loc lib w)%nat ->
  exists w',
    estimate_ATT lib X a o ct n w = (att_value lib (frames lib w X) a o ct n, w') /\
    forall v,
      att_value lib (frames lib w X) a o ct n = Ok v ->
      exists x1,
        scored lib (frames lib w X) ct a = Ok x1 /\
        frames lib w' X = x1 /\
        extends lib X w w'.
Proof.
  intros HX. unfold estimate_ATT, att_value.
  destruct (scored lib (frames lib w X) ct a) as [x1|e] eqn:Hs; cbn [rbind].
  2: { match goal with
       | |- context [bind ?m ?k w] =>
           destruct (bind_Raise m k w e) as [w' ->]
       end.
       - by rewrite score_run_default, Hs.
       - exists w'. split; [done|discriminate]. }
  erewrite bind_Ok by (rewrite score_run_default, Hs; reflexivity).
  set (w1 := with_frame lib w X x1).
  assert (frames lib w1 X = x1) as Hx1
      by (unfold w1, with_frame; cbn; apply fn_lookup_insert).
  assert (X < next_loc lib w1)%nat as HX1 by done.
  destruct (match_frames lib x1 a "propensity score" n) as [[t c]|e] eqn:Hm;
    cbn [rbind].
  2: { match goal with
       | |- context [bind ?m ?k w1] =>
           destruct (bind_Raise m k w1 e) as [w' ->]
       end.
       - apply match_run_Raise; [done|by rewrite Hx1].
       - exists w'. split; [done|discriminate]. }
  destruct (match_run_Ok lib X a "propensity score" n w1 t c HX1)
    as (w2 & Hrun & Hext & Hn2 & Ht & Hc); [by rewrite Hx1|].
  erewrite bind_Ok by exact Hrun. cbn [fst snd].
  destruct (control_outcomes t c o) as [t'|e] eqn:Hco; cbn [rbind].
  2: { match goal with
       | |- context [bind ?m ?k w2] =>
           destruct (bind_Raise m k w2 e) as [w' ->]
       end.
       - by rewrite estimate_treatments_run, Ht, Hc, Hco.
       - exists w'. split; [done|discriminate]. }
  erewrite bind_Ok
    by (rewrite estimate_treatments_run, Ht, Hc, Hco; reflexivity).
  set (w3 := with_frame lib w2 (next_loc lib w1) t').
  assert (frames lib w3 (next_loc lib w1) = t') as Ht'
      by (unfold w3, with_frame; cbn; apply fn_lookup_insert).
  assert (extends lib X w w3) as Hext3.
  { destruct Hext as (Hle & Hpm & Hfr).
    unfold extends, w3, with_frame. cbn [frames next_loc propensity_score_model].
    split; [unfold w1 in *; cbn in *; lia|].
    split; [rewrite Hpm; done|].
    intros l Hl Hne. unfold w1 in *. cbn in *.
    rewrite fn_lookup_insert_ne by lia.
    rewrite Hfr by lia. by rewrite fn_lookup_insert_ne. }
  assert (frames lib w3 X = x1) as Hx3.
  { destruct Hext as (Hle & Hpm & Hfr).
    unfold w3, with_frame. cbn [frames].
    rewrite fn_lookup_insert_ne by (unfold w1; cbn; lia).
    rewrite Hfr by (unfold w1; cbn; lia). done. }
  exists w3.
  unfold mean_difference, bind, load, lift, ret. rewrite Ht'.
  repeat run_step.
  all: split; [reflexivity|intros v Hv; try discriminate Hv].
  exists x1. split; [done|]. split; [exact Hx3|exact Hext3].
Qed.

Lemma estimate_ATC_run X a o ct n w :
  (X < next_loc lib w)%nat ->
  exists w',
    estimate_ATC lib X a o ct n w = (atc_value lib (frames lib w X) a o ct n, w') /\
    forall v,
      atc_value lib (frames lib w X) a o ct n = Ok v ->
      frames lib w' X = frames lib w X /\
      (next_loc lib w <= next_loc lib w')%nat.
Proof.
  intros HX. unfold estimate_ATC, atc_value.
  unfold bind at 1 2 3. unfold load at 1, new at 1, load at 1.
  cbn [frames next_loc propensity_score_model].
  rewrite fn_lookup_insert.
  unfold bind at 1, lift at 1.
  destruct (getitem (frames lib w X) a) as [col|e]; cbn [rbind].
  2: { eexists. split; [done|discriminate]. }
  unfold bind at 1, lift at 1.
  destruct (rmap flip col) as [fl|e]; cbn [rbind].
  2: { eexists. split; [done|discriminate]. }
  unfold bind at 1 2, load at 1, store at 1.
  cbn [frames next_loc propensity_score_model].
  rewrite fn_lookup_insert.
  set (w2 := mkWorld lib _ _ _).
  assert (next_loc lib w < next_loc lib w2)%nat as Hlt by (cbn; lia).
  assert (frames lib w2 (next_loc lib w) = setitem (frames lib w X) a fl) as Hf
      by (cbn; apply fn_lookup_insert).
  destruct (estimate_ATT_run (next_loc lib w) a o ct n w2 Hlt)
    as (w' & Hrun & Hok).
  rewrite Hf in Hrun, Hok.
  unfold bind. rewrite Hrun.
  destruct (att_value lib (setitem (frames lib w X) a fl) a o ct n) as [v|e];
    cbn [rbind].
  2: { eexists. split; [done|discriminate]. }
  exists w'. split; [done|]. intros _ _.
  destruct (Hok v eq_refl) as (x1 & _ & _ & Hle & _ & Hfr).
  split.
  - rewrite Hfr by (cbn; lia). cbn.
    by rewrite !fn_lookup_insert_ne by lia.
  - cbn in Hle. lia.
Qed.

(** The answers do not depend on a ['propensity score'] column that the
    table already has, unless that column is read as the assignment or as
    a confounder. *)
Section Independence.
Context (ps := "propensity score").

Lemma getitem_setitem_ne X c s c' :
  c <> c' -> getitem (setitem X c s) c' = getitem X c'.
Proof. intros H. unfold getitem, setitem; cbn. by rewrite lookup_insert_ne. Qed.

Lemma getitems_setitem_notin X c s (cs : list string) :
  c ∉ cs -> getitems (setitem X c s) cs = getitems X cs.
Proof.
  intros H. unfold getitems, setitem. cbn [columns nrows].
  assert (List.filter
            (fun c' => bool_decide (<[c:=s]> (columns X) !! c' = None)) cs
          = List.filter (fun c' => bool_decide (columns X !! c' = None)) cs)
    as ->.
  { induction cs as [|c' cs IH]; [done|]. cbn [List.filter].
    rewrite lookup_insert_ne by set_solver.
    rewrite IH by set_solver. done. }
  by rewrite map_filter_insert_not by (intros y; cbn; done).
Qed.

Lemma score_confounders_setitem x sc items df rc :
  ps ∉ items.*1 ->
  score_confounders lib (setitem x ps sc) items df rc
  = score_confounders lib x items df rc.
Proof.
  revert df rc. induction items as [|[c t] items IH]; intros df rc H; [done|].
  cbn [score_confounders].
  rewrite fmap_cons, not_elem_of_cons in H. destruct H as [Hc Hi].
  cbn [fst] in Hc.
  rewrite getitems_setitem_notin
    by (rewrite not_elem_of_cons; split; [done|apply not_elem_of_nil]).
  rewrite !getitem_setitem_ne by done.
  destruct (bool_decide (t = "o") || bool_decide (t = "u")).
  - repeat run_step; try done.
    match goal with
    | |- context [let '(_, _) := ?p in _] => destruct p as [cols dm]
    end.
    destruct (bool_decide (length cols = 1%nat)); run_step; auto.
  - repeat run_step; auto.
Qed.

Lemma score_table_setitem x sc m df rc :
  score_table lib (setitem x ps sc) m df rc = score_table lib x m df rc.
Proof.
  unfold score_table, setarray, setitem. cbn [nrows columns].
  repeat run_step; try done.
  case_decide; [|done]. by rewrite insert_insert_eq.
Qed.

Lemma scored_setitem x sc ct a :
  a <> ps -> ps ∉ ct.*1 ->
  scored lib (setitem x ps sc) ct a = scored lib x ct a.
Proof.
  intros Ha Hct. unfold scored, score_fit.
  rewrite getitems_setitem_notin
    by (rewrite not_elem_of_cons; split; [done|apply not_elem_of_nil]).
  destruct (getitems x [a]) as [df|e]; cbn [rbind]; [|done].
  rewrite score_confounders_setitem by done.
  destruct (score_confounders lib x ct df []) as [[df' rc]|e]; cbn [rbind];
    [|done].
  match goal with
  | |- rbind ?r _ = _ => destruct r as [[[m d] r0]|e]; cbn [rbind]; [|done]
  end.
  apply score_table_setitem.
Qed.

Lemma att_value_setitem x sc a o ct n :
  a <> ps -> ps ∉ ct.*1 ->
  att_value lib (setitem x ps sc) a o ct n = att_value lib x a o ct n.
Proof. intros Ha Hct. unfold att_value. by rewrite scored_setitem. Qed.

Lemma atc_value_setitem x sc a o ct n :
  a <> ps -> ps ∉ ct.*1 ->
  atc_value lib (setitem x ps sc) a o ct n = atc_value lib x a o ct n.
Proof.
  intros Ha Hct. unfold atc_value.
  rewrite getitem_setitem_ne by done.
  destruct (getitem x a) as [col|e]; cbn [rbind]; [|done].
  destruct (rmap flip col) as [fl|e]; cbn [rbind]; [|done].
  assert (setitem (setitem x ps sc) a fl = setitem (setitem x a fl) ps sc)
    as ->.
  { unfold setitem; cbn. f_equal. by apply insert_insert_ne. }
  by rewrite att_value_setitem.
Qed.

End Independence.

End Estimates.

(** ** Claims on the estimates *)

Section Estimate_claims.
Import PropensityScoreMatching.


(** X22. For a table object [X] in which ['propensity score'] is neither
    the assignment column nor a confounder, [estimate_ATE] does what the
    weighted combination says, on every path: it raises what
    [estimate_ATT] raises on that table, else what [estimate_ATC] raises on
    it, else what computing [p] raises (a missing column, no rows), and
    otherwise returns exactly [p * ATT + (1 - p) * ATC], where [ATT] and
    [ATC] are what the two methods return on that table with the same
    arguments and [p] is the number of rows with assignment 1 over the
    number of rows. *)
Theorem estimate_ATE_decomposition lib X a o ct n w :
  (X < next_loc lib w)%nat ->
  a <> "propensity score" ->
  "propensity score" ∉ ct.*1 ->
  (estimate_ATE lib X a o ct n w).1 =
  (let? att := (estimate_ATT lib X a o ct n w).1 in
   let? atc := (estimate_ATC lib X a o ct n w).1 in
   let? treated := count_eq (frames lib w X) a one in
   let? p := py_truediv treated (nrows (frames lib w X)) in
   Ok (fadd (fmul p att) (fmul (fsub one p) atc))).
Proof.
  intros HX Ha Hct.
  destruct (estimate_ATT_run lib X a o ct n w HX) as (w1 & Hatt & Hok1).
  destruct (estimate_ATC_run lib X a o ct n w HX) as (w0 & Hatc0 & _).
  rewrite Hatt, Hatc0. cbn [fst].
  unfold estimate_ATE. unfold bind at 1. rewrite Hatt.
  destruct (att_value lib (frames lib w X) a o ct n) as [att|e] eqn:Eatt;
    cbn [rbind fst]; [|done].
  destruct (Hok1 att eq_refl) as (x1 & Hsc & Hx1 & Hext).
  destruct (scored_inv lib _ _ _ _ Hsc) as (scores & Hlen & ->).
  assert (X < next_loc lib w1)%nat as HX1 by (destruct Hext; lia).
  destruct (estimate_ATC_run lib X a o ct n w1 HX1) as (w2 & Hatc & Hok2).
  rewrite Hx1, atc_value_setitem in Hatc, Hok2 by done.
  unfold bind at 1. rewrite Hatc.
  destruct (atc_value lib (frames lib w X) a o ct n) as [atc|e] eqn:Eatc;
    cbn [rbind fst]; [|done].
  destruct (Hok2 atc eq_refl) as [Hx2 _].
  unfold bind, load, lift, ret. rewrite Hx2.
  unfold count_eq. rewrite getitem_setitem_ne by done.
  cbn [nrows setitem].
  repeat run_step; done.
Qed.

(** [estimate_ATE_decomposition] on [units], with the confounder [x]. *)
Lemma estimate_ATE_decomposition_witness :
  (estimate_ATE Standin.lib 0%nat "assignment" "y" [("x", "c")] 1
     (world_of Standin.lib units)).1 =
  (let? att := (estimate_ATT Standin.lib 0%nat "assignment" "y" [("x", "c")] 1
                  (world_of Standin.lib units)).1 in
   let? atc := (estimate_ATC Standin.lib 0%nat "assignment" "y" [("x", "c")] 1
                  (world_of Standin.lib units)).1 in
   let? treated := count_eq (frames _ (world_of Standin.lib units) 0%nat)
                     "assignment" one in
   let? p := py_truediv treated
               (nrows (frames _ (world_of Standin.lib units) 0%nat)) in
   Ok (fadd (fmul p att) (fmul (fsub one p) atc))).
Proof.
  apply (estimate_ATE_decomposition Standin.lib 0%nat "assignment" "y"
           [("x", "c")] 1 (world_of Standin.lib units)).
  - simpl. lia.
  - discriminate.
  - simpl. rewrite not_elem_of_cons. split; [discriminate|apply not_elem_of_nil].
Defined.

End Estimate_claims.

(** ** The matched control outcome *)

Section Matched.
Import PropensityScoreMatching.

Lemma rmap_Forall2 {A B} (f : A -> result B) l l' :
  rmap f l = Ok l' -> Forall2 (fun a b => f a = Ok b) l l'.
Proof.
  revert l'. induction l as [|a l IH]; intros l' H; simpl in H.
  - injection H as <-. constructor.
  - apply rbind_Ok in H as (b & Hb & H).
    apply rbind_Ok in H as (bs & Hbs & H). injection H as <-.
    constructor; auto.
Qed.






End Matched.

Section ATT_claim.
Import PropensityScoreMatching.




End ATT_claim.

(* ===================================================================== *)
(** * Further properties of the code                                      *)
(* ===================================================================== *)

(** ** The panel and the parallel-trend test *)

Section More_DiD.
Import DifferenceInDifferences.

(** X1. The panel stacks four blocks in the order test-pre, test-post,
    control-pre, control-post: its [y] column is the [Start] of the treated
    rows, their [End], the [Start] of the control rows, their [End]; [t]
    is 0 on the two pre blocks and 1 on the two post blocks; [assignment]
    is 1 on the two test blocks and 0 on the two control blocks; and
    [intercept] is 1 on every row. *)
Theorem panel_stacks_four_blocks X a s e st en asg :
  columns X !! "Assignment" = Some a ->
  columns X !! "Start" = Some s ->
  columns X !! "End" = Some e ->
  exists df,
    panel X st en asg = Ok df /\
    getitem df "y" =
      Ok (select (map (cell_eq one) a) s ++ select (map (cell_eq one) a) e ++
          select (map (cell_eq zero) a) s ++ select (map (cell_eq zero) a) e) /\
    getitem df "t" =
      Ok (const_col zero (select (map (cell_eq one) a) s) ++
          const_col one (select (map (cell_eq one) a) e) ++
          const_col zero (select (map (cell_eq zero) a) s) ++
          const_col one (select (map (cell_eq zero) a) e)) /\
    getitem df "assignment" =
      Ok (const_col one (select (map (cell_eq one) a) s) ++
          const_col one (select (map (cell_eq one) a) e) ++
          const_col zero (select (map (cell_eq zero) a) s) ++
          const_col zero (select (map (cell_eq zero) a) e)) /\
    getitem df "intercept" = Ok (replicate (nrows df) (Num one)).
Proof.
  intros Ha Hs He.
  destruct (panel_columns X a s e st en asg Ha Hs He)
    as (df & Hp & Hn & Hy & Hasg & Htt & _ & Hi).
  exists df. rewrite Hn. by repeat split.
Qed.

(** [panel_stacks_four_blocks] on one treated and two control units. *)
Lemma panel_stacks_four_blocks_witness :
  exists df,
    panel one_and_two "Start" "End" "Assignment" = Ok df /\
    getitem df "y" = Ok (map (fun z => Num (of_Z z)) [10; 15; 10; 10; 10; 10]%Z) /\
    getitem df "t" = Ok (map (fun z => Num (of_Z z)) [0; 1; 0; 0; 1; 1]%Z) /\
    getitem df "assignment"
    = Ok (map (fun z => Num (of_Z z)) [1; 1; 0; 0; 0; 0]%Z) /\
    getitem df "intercept" = Ok (replicate (nrows df) (Num one)).
Proof.
  apply (panel_stacks_four_blocks one_and_two
           (map (fun z => Num (of_Z z)) [1; 0; 0]%Z)
           (map (fun z => Num (of_Z z)) [10; 10; 10]%Z)
           (map (fun z => Num (of_Z z)) [15; 10; 10]%Z)
           "Start" "End" "Assignment"); reflexivity.
Defined.

Lemma wf_block y a t : wf_frame (block y a t).
Proof.
  unfold wf_frame, block, from_dict. cbn [columns nrows list_to_map].
  apply map_Forall_insert_2; [done|].
  apply map_Forall_insert_2; [cbn [snd]; apply length_map|].
  apply map_Forall_insert_2; [cbn [snd]; apply length_map|].
  apply map_Forall_empty.
Qed.

Lemma wf_append A B : wf_frame A -> wf_frame B -> wf_frame (append A B).
Proof.
  intros HA HB k col. unfold append. cbn [columns nrows].
  rewrite lookup_merge.
  destruct (columns A !! k) as [a|] eqn:Ea, (columns B !! k) as [b|] eqn:Eb;
    cbn; intros [= <-]; rewrite length_app, ?length_replicate;
    rewrite ?(HA _ _ Ea), ?(HB _ _ Eb); done.
Qed.

Lemma block_labels y a t k :
  is_Some (columns (block y a t) !! k) <-> k ∈ ["y"; "assignment"; "t"].
Proof.
  unfold block, from_dict. cbn [columns].
  rewrite !list_to_map_cons, list_to_map_nil.
  rewrite !lookup_insert_is_Some, lookup_empty, is_Some_alt.
  rewrite !elem_of_cons, elem_of_nil. intuition (subst; eauto; discriminate).
Qed.

Lemma append_labels A B k :
  is_Some (columns (append A B) !! k)
  <-> is_Some (columns A !! k) \/ is_Some (columns B !! k).
Proof.
  unfold append. cbn [columns]. rewrite lookup_merge.
  destruct (columns A !! k), (columns B !! k); cbn;
    rewrite <- ?not_eq_None_Some; intuition (eauto; congruence).
Qed.

Lemma length_series_mul s1 s2 r :
  series_mul s1 s2 = Ok r -> length s1 = length s2 -> length r = length s1.
Proof.
  revert s2 r. induction s1 as [|c1 s1 IH]; intros [|c2 s2] r H Hl;
    simpl in *; try discriminate; try (by injection H as <-).
  apply rbind_Ok in H as (x & _ & H). apply rbind_Ok in H as (y & _ & H).
  apply rbind_Ok in H as (r' & Hr & H). injection H as <-. simpl.
  f_equal. apply (IH s2); [done|lia].
Qed.

(** X2. Whatever the input table, the panel that is built has exactly the
    five columns [y], [assignment], [t], [did] and [intercept], and each of
    them has one cell per row of the panel. *)
Theorem panel_is_well_formed X st en asg df :
  panel X st en asg = Ok df ->
  wf_frame df /\
  forall k,
    is_Some (columns df !! k)
    <-> k ∈ ["y"; "assignment"; "t"; "did"; "intercept"].
Proof.
  unfold panel. intros H.
  do 8 (apply rbind_Ok in H as (? & _ & H)).
  cbn zeta in H. revert H.
  match goal with
  | |- context [getitem ?p "t"] => set (P := p)
  end.
  assert (wf_frame P) as HP by (repeat apply wf_append; apply wf_block).
  assert (forall k, is_Some (columns P !! k) <-> k ∈ ["y"; "assignment"; "t"])
    as HL.
  { intros k. unfold P. rewrite !append_labels, !block_labels. tauto. }
  intros H.
  apply rbind_Ok in H as (tcol & Ht & H).
  apply rbind_Ok in H as (acol & Ha & H).
  apply rbind_Ok in H as (did & Hd & H). injection H as <-.
  apply getitem_inv in Ht, Ha.
  pose proof (HP _ _ Ht) as Lt. pose proof (HP _ _ Ha) as La.
  apply length_series_mul in Hd; [|congruence].
  split.
  - unfold wf_frame, setscalar, setitem. cbn [columns nrows].
    apply map_Forall_insert_2; [by rewrite length_replicate|].
    apply map_Forall_insert_2; [congruence|]. exact HP.
  - intros k. unfold setscalar, setitem. cbn [columns nrows].
    rewrite !lookup_insert_is_Some, HL.
    rewrite !elem_of_cons, elem_of_nil.
    destruct (decide ("intercept" = k)), (decide ("did" = k));
      intuition (subst; eauto; congruence).
Qed.

(** [panel_is_well_formed] on one treated and two control units. *)
Lemma panel_is_well_formed_witness :
  exists df,
    panel one_and_two "Start" "End" "Assignment" = Ok df /\
    wf_frame df /\
    forall k,
      is_Some (columns df !! k)
      <-> k ∈ ["y"; "assignment"; "t"; "did"; "intercept"].
Proof.
  eexists. split; [reflexivity|].
  apply (panel_is_well_formed one_and_two "Start" "End" "Assignment").
  reflexivity.
Defined.

Lemma select_select (f g : cell -> bool) a s :
  (forall c, g c = true -> f c = true) ->
  select (map g (select (map f a) a)) (select (map f a) s)
  = select (map g a) s.
Proof.
  intros Hgf. revert s.
  induction a as [|x a IH]; intros [|y s]; simpl; try done.
  - by destruct (f x); simpl; destruct (select _ a).
  - destruct (f x) eqn:Ef; simpl.
    + destruct (g x); by rewrite IH.
    + destruct (g x) eqn:Eg; [|apply IH]. apply Hgf in Eg. congruence.
Qed.

Lemma count_true_select (f g : cell -> bool) a :
  (forall c, g c = true -> f c = true) ->
  count_true (map g (select (map f a) a)) = count_true (map g a).
Proof.
  intros Hgf. unfold count_true.
  induction a as [|x a IH]; simpl; [done|].
  destruct (f x) eqn:Ef; simpl.
  - destruct (g x); simpl; by rewrite IH.
  - destruct (g x) eqn:Eg; [|apply IH]. apply Hgf in Eg. congruence.
Qed.

Lemma boolean_index_twice X (f g : cell -> bool) a :
  (forall c, g c = true -> f c = true) ->
  boolean_index (boolean_index X (map f a)) (map g (select (map f a) a))
  = boolean_index X (map g a).
Proof.
  intros Hgf. unfold boolean_index. cbn [columns nrows].
  rewrite count_true_select by done. f_equal.
  rewrite <- map_fmap_compose. apply map_fmap_ext.
  intros k s _. cbn. by apply select_select.
Qed.

Lemma in_a_group_1 c : cell_eq one c = true -> in_a_group c = true.
Proof. unfold in_a_group. intros ->. apply orb_true_r. Qed.

Lemma in_a_group_0 c : cell_eq zero c = true -> in_a_group c = true.
Proof. unfold in_a_group. by intros ->. Qed.

(** X3. Rows whose [Assignment] is neither 0 nor 1 are left out of both
    partitions, so they have no part in the estimate:
    [average_treatment_effect] on a table is [average_treatment_effect] on
    the table without those rows, whatever the regression library is. *)
Theorem average_treatment_effect_ignores_stray_rows lib self X a st en asg :
  getitem X "Assignment" = Ok a ->
  average_treatment_effect lib self (boolean_index X (map in_a_group a))
    st en asg
  = average_treatment_effect lib self X st en asg.
Proof.
  intros Ha. unfold average_treatment_effect. f_equal.
  unfold panel. rewrite Ha.
  assert (getitem (boolean_index X (map in_a_group a)) "Assignment"
          = Ok (select (map in_a_group a) a)) as ->.
  { apply getitem_Ok. rewrite lookup_boolean_index.
    by rewrite (getitem_inv _ _ _ Ha). }
  cbn [rbind].
  rewrite !boolean_index_twice by (apply in_a_group_1 || apply in_a_group_0).
  reflexivity.
Qed.

(** [average_treatment_effect_ignores_stray_rows] on four units, one of
    which has [Assignment = 2]. *)
Lemma average_treatment_effect_ignores_stray_rows_witness :
  average_treatment_effect Standin.lib (init false)
    (boolean_index with_stray [true; true; false; true])
    "Start" "End" "Assignment"
  = average_treatment_effect Standin.lib (init false) with_stray
      "Start" "End" "Assignment".
Proof.
  apply (average_treatment_effect_ignores_stray_rows Standin.lib (init false)
           with_stray (map (fun z => Num (of_Z z)) [1; 0; 2; 0]%Z)).
  reflexivity.
Defined.

Lemma boolean_index_setitem X c s mask :
  boolean_index (setitem X c s) mask
  = setitem (boolean_index X mask) c (select mask s).
Proof.
  unfold boolean_index, setitem. cbn [columns nrows]. f_equal.
  apply fmap_insert.
Qed.

(** X4. [average_treatment_effect] reads the three columns [Assignment],
    [Start] and [End] and no other: adding a column under another label,
    or replacing one, changes nothing of what it returns or raises. *)
Theorem average_treatment_effect_ignores_other_columns
    lib self X c s st en asg :
  c ∉ ["Assignment"; "Start"; "End"] ->
  average_treatment_effect lib self (setitem X c s) st en asg
  = average_treatment_effect lib self X st en asg.
Proof.
  intros Hc. rewrite !not_elem_of_cons in Hc. destruct Hc as (H1 & H2 & H3 & _).
  unfold average_treatment_effect. f_equal. unfold panel.
  rewrite !getitem_setitem_ne by done.
  destruct (getitem X "Assignment") as [a|e]; cbn [rbind]; [|done].
  rewrite !boolean_index_setitem.
  rewrite !getitems_setitem_notin; [done|..];
    rewrite !not_elem_of_cons; (split; [done|split; [done|apply not_elem_of_nil]]).
Qed.

(** [average_treatment_effect_ignores_other_columns] on a table given one
    more column. *)
Lemma average_treatment_effect_ignores_other_columns_witness :
  average_treatment_effect Standin.lib (init true)
    (setitem one_and_two "age" [Num (of_Z 30); Num (of_Z 40); Num (of_Z 50)])
    "Start" "End" "Assignment"
  = average_treatment_effect Standin.lib (init true) one_and_two
      "Start" "End" "Assignment".
Proof.
  apply (average_treatment_effect_ignores_other_columns Standin.lib
           (init true) one_and_two "age").
  rewrite !not_elem_of_cons.
  repeat split; try discriminate. apply not_elem_of_nil.
Defined.

(** X5. [test_parallel_trend] answers [True] exactly when
    [average_treatment_effect] returns bounds with [lower <= 0 <= upper]
    in the order of the floats, and [False] exactly when it returns other
    bounds: a bound that is [NaN] gives [False], the bounds minus infinity
    and plus infinity give [True], and the point estimate plays no part.
    It raises exactly what [average_treatment_effect] raises. *)
Theorem test_parallel_trend_is_zero_in_interval lib self X st en asg :
  (test_parallel_trend lib self X st en asg = Ok true <->
   exists l p u,
     average_treatment_effect lib self X st en asg = Ok (l, p, u) /\
     fleb l zero = true /\ fleb zero u = true) /\
  (test_parallel_trend lib self X st en asg = Ok false <->
   exists l p u,
     average_treatment_effect lib self X st en asg = Ok (l, p, u) /\
     (fleb l zero = false \/ fleb zero u = false)) /\
  (forall l p u,
      average_treatment_effect lib self X st en asg = Ok (l, p, u) ->
      is_nan l = true \/ is_nan u = true ->
      test_parallel_trend lib self X st en asg = Ok false) /\
  (forall p,
      average_treatment_effect lib self X st en asg
      = Ok (S754_infinity true, p, S754_infinity false) ->
      test_parallel_trend lib self X st en asg = Ok true) /\
  (forall e,
      test_parallel_trend lib self X st en asg = Raise e <->
      average_treatment_effect lib self X st en asg = Raise e).
Proof.
  unfold test_parallel_trend.
  destruct (average_treatment_effect lib self X st en asg)
    as [[[lower p] upper]|e0]; cbn [rbind].
  2: { repeat split; try discriminate.
       - by intros (? & ? & ? & ? & _).
       - by intros (? & ? & ? & ? & _).
       - by intros [= ->].
       - by intros [= ->]. }
  unfold contains_zero.
  split; [|split; [|split; [|split]]].
  - split.
    + destruct (fleb lower zero) eqn:El, (fleb zero upper) eqn:Eu;
        try discriminate.
      intros _. by exists lower, p, upper.
    + intros (l & p' & u & [= -> -> ->] & -> & ->). reflexivity.
  - split.
    + destruct (fleb lower zero) eqn:El, (fleb zero upper) eqn:Eu;
        try discriminate; intros _; exists lower, p, upper; auto.
    + intros (l & p' & u & [= -> -> ->] & [-> | Hu]); [done|].
      rewrite Hu. by destruct (fleb l zero).
  - intros l p' u [= -> -> ->] [Hn|Hn].
    + by destruct l.
    + destruct u; try discriminate Hn. by destruct (fleb l zero).
  - intros p' [= -> -> ->]. reflexivity.
  - intros e. split; [|discriminate].
    by destruct (fleb lower zero && fleb zero upper).
Qed.

End More_DiD.

(** ** More on [score] *)

Section More_score.
Import PropensityScoreMatching.

Lemma score_confounders_pass_through lib x pre rest df rc :
  Forall (fun kv => is_dummy_tag kv.2 = false /\ is_Some (columns x !! kv.1))
    pre ->
  exists df',
    score_confounders lib x (pre ++ rest) df rc
    = score_confounders lib x rest df' (rc ++ pre.*1).
Proof.
  intros H. revert df rc.
  induction H as [|[c t] pre [Ht [col Hc]] _ IH]; intros df rc.
  - exists df. by rewrite app_nil_r.
  - cbn [app score_confounders]. unfold is_dummy_tag in Ht. cbn in Ht.
    rewrite Ht. cbn in Hc. rewrite (getitem_Ok _ _ _ Hc). cbn [rbind].
    destruct (IH (setitem (setitem df c col) c col) (rc ++ [c])) as [df' ->].
    exists df'. cbn [fmap list_fmap fst]. by rewrite <- app_assoc.
Qed.

(** X6. [score] fails on a missing column before it changes anything. When
    the table has no assignment column the call raises a [KeyError] naming
    it; when the confounders up to some point are pass-through columns of
    the table and the next one is a pass-through column that the table
    lacks, the call raises a [KeyError] naming that one. In both cases no
    table and no attribute is written. *)
Theorem score_missing_column lib X a s i w :
  (forall ct,
      columns (frames lib w X) !! a = None ->
      score lib X ct a s i w = (Raise (KeyError [a]), w)) /\
  (forall pre c t post,
      is_Some (columns (frames lib w X) !! a) ->
      Forall (fun kv => is_dummy_tag kv.2 = false /\
                        is_Some (columns (frames lib w X) !! kv.1)) pre ->
      is_dummy_tag t = false ->
      columns (frames lib w X) !! c = None ->
      score lib X (pre ++ (c, t) :: post) a s i w = (Raise (KeyError [c]), w)).
Proof.
  split.
  - intros ct Ha. rewrite score_run. unfold score_fit, getitems.
    cbn [List.filter]. rewrite Ha. by rewrite bool_decide_eq_true_2.
  - intros pre c t post [col Ha] Hpre Ht Hc.
    rewrite score_run. unfold score_fit.
    rewrite getitems_Ok by (repeat constructor; by rewrite Ha).
    cbn [rbind].
    edestruct (score_confounders_pass_through lib (frames lib w X) pre
                 ((c, t) :: post)) as [df' ->]; [exact Hpre|].
    cbn [score_confounders]. unfold is_dummy_tag in Ht. rewrite Ht.
    by rewrite (getitem_missing _ _ Hc).
Qed.

(** [score_missing_column] on [units]: no [group] column; and, with the
    confounder [x] there, no [age] column. *)
Lemma score_missing_column_witness :
  score Standin.lib 0%nat [("x", "c")] "group" false true
    (world_of Standin.lib units)
  = (Raise (KeyError ["group"]), world_of Standin.lib units) /\
  score Standin.lib 0%nat ([("x", "c")] ++ ("age", "c") :: [("y", "d")])
    "assignment" false true (world_of Standin.lib units)
  = (Raise (KeyError ["age"]), world_of Standin.lib units).
Proof.
  split.
  - apply (proj1 (score_missing_column Standin.lib 0%nat "group" false true
                    (world_of Standin.lib units))).
    reflexivity.
  - apply (proj2 (score_missing_column Standin.lib 0%nat "assignment" false
                    true (world_of Standin.lib units))).
    + eexists; reflexivity.
    + repeat constructor. eexists; reflexivity.
    + reflexivity.
    + reflexivity.
Defined.

(** X7. With [store_model_fit] true, a call of [score] that returns has
    stored in [propensity_score_model] a fitted model, and the scores it
    has written into the table are that model's predictions: there are a
    design matrix and its column labels on which the stored model predicts
    exactly the new ['propensity score'] column. *)
Theorem score_stores_the_model_it_predicts_with lib X ct a i w l :
  (score lib X ct a true i w).1 = Ok l ->
  exists m labels exog scores,
    propensity_score_model lib (score lib X ct a true i w).2 = Some m /\
    predict lib m labels exog = Ok scores /\
    frames lib (score lib X ct a true i w).2 X
    = setitem (frames lib w X) "propensity score" scores.
Proof.
  rewrite score_run.
  destruct (score_fit lib (frames lib w X) ct a i) as [[[m df] rc]|e];
    [|discriminate].
  cbn zeta.
  destruct (score_table lib (frames lib w X) m df rc) as [x'|e] eqn:Ht;
    [|discriminate].
  intros _. unfold score_table in Ht.
  apply rbind_Ok in Ht as (exog & _ & Ht).
  apply rbind_Ok in Ht as (scores & Hp & Ht).
  unfold setarray in Ht. case_decide; [|discriminate]. injection Ht as <-.
  exists m, rc, exog, scores. cbn. by rewrite fn_lookup_insert.
Qed.

(** [score_stores_the_model_it_predicts_with] on [units]. *)
Lemma score_stores_the_model_it_predicts_with_witness :
  exists m labels exog scores,
    propensity_score_model _
      (score Standin.lib 0%nat [("x", "c")] "assignment" true true
         (world_of Standin.lib units)).2 = Some m /\
    predict Standin.lib m labels exog = Ok scores /\
    frames _ (score Standin.lib 0%nat [("x", "c")] "assignment" true true
                (world_of Standin.lib units)).2 0%nat
    = setitem (frames _ (world_of Standin.lib units) 0%nat)
        "propensity score" scores.
Proof.
  apply (score_stores_the_model_it_predicts_with Standin.lib 0%nat
           [("x", "c")] "assignment" true (world_of Standin.lib units) 0%nat).
  vm_compute. reflexivity.
Defined.

(** X8. [store_model_fit] decides nothing but the attribute: with it true
    or false, [score] returns or raises the same, and leaves the same
    tables; and with it true the attribute is written as soon as the fit
    has succeeded, so it is no longer [None] after a call that returns. *)
Theorem store_model_fit_only_sets_the_attribute lib X ct a i w :
  (score lib X ct a true i w).1 = (score lib X ct a false i w).1 /\
  (forall l,
      frames lib (score lib X ct a true i w).2 l
      = frames lib (score lib X ct a false i w).2 l) /\
  next_loc lib (score lib X ct a true i w).2
  = next_loc lib (score lib X ct a false i w).2 /\
  (forall l,
      (score lib X ct a true i w).1 = Ok l ->
      propensity_score_model lib (score lib X ct a true i w).2 <> None).
Proof.
  rewrite !score_run.
  destruct (score_fit lib (frames lib w X) ct a i) as [[[m df] rc]|e];
    [|by repeat split].
  cbn zeta.
  destruct (score_table lib (frames lib w X) m df rc) as [x'|e];
    by repeat split.
Qed.

(** X9. [score] keeps the table well-formed: if every column of the
    caller's table has one cell per row before the call, so it is after
    it, returned or raised: the scores are written only when there is one
    per row. *)
Theorem score_keeps_the_table_well_formed lib X ct a s i w :
  wf_frame (frames lib w X) ->
  wf_frame (frames lib (score lib X ct a s i w).2 X).
Proof.
  intros Hwf. rewrite score_run.
  destruct (score_fit lib (frames lib w X) ct a i) as [[[m df] rc]|e];
    [|done].
  cbn zeta.
  destruct (score_table lib (frames lib w X) m df rc) as [x'|e] eqn:Ht.
  - unfold score_table in Ht.
    apply rbind_Ok in Ht as (exog & _ & Ht).
    apply rbind_Ok in Ht as (scores & _ & Ht).
    unfold setarray in Ht. case_decide; [|discriminate]. injection Ht as <-.
    assert (wf_frame (setitem (frames lib w X) "propensity score" scores)).
    { unfold wf_frame, setitem. cbn [columns nrows].
      by apply map_Forall_insert_2. }
    destruct s; cbn; by rewrite fn_lookup_insert.
  - by destruct s.
Qed.

Lemma wf_table3 (n1 n2 n3 : string) (c1 c2 c3 : list Z) :
  length c1 = 3%nat -> length c2 = 3%nat -> length c3 = 3%nat ->
  wf_frame (table 3 [(n1, c1); (n2, c2); (n3, c3)]).
Proof.
  intros H1 H2 H3. unfold wf_frame, table. cbn [columns nrows map].
  rewrite !list_to_map_cons, list_to_map_nil.
  apply map_Forall_insert_2; [cbn [snd]; by rewrite length_map|].
  apply map_Forall_insert_2; [cbn [snd]; by rewrite length_map|].
  apply map_Forall_insert_2; [cbn [snd]; by rewrite length_map|].
  apply map_Forall_empty.
Qed.

(** [score_keeps_the_table_well_formed] on [units]. *)
Lemma score_keeps_the_table_well_formed_witness :
  wf_frame
    (frames _ (score Standin.lib 0%nat [("x", "c")] "assignment" false true
                 (world_of Standin.lib units)).2 0%nat).
Proof.
  apply (score_keeps_the_table_well_formed Standin.lib 0%nat [("x", "c")]
           "assignment" false true (world_of Standin.lib units)).
  by apply wf_table3.
Defined.

End More_score.

(** ** More on [match] and [estimate_treatments] *)

Section More_match.
Import PropensityScoreMatching.

Lemma match_returns lib X a sc n w T C w' :
  (X < next_loc lib w)%nat ->
  match_ lib X a sc n w = (Ok (T, C), w') ->
  exists t c,
    match_frames lib (frames lib w X) a sc n = Ok (t, c) /\
    T = next_loc lib w /\ C = S (next_loc lib w) /\
    extends lib (next_loc lib w) w w' /\
    frames lib w' T = t /\ frames lib w' C = c.
Proof.
  intros HX Hrun.
  destruct (match_frames lib (frames lib w X) a sc n) as [[t c]|e] eqn:Hm.
  - destruct (match_run_Ok lib X a sc n w t c HX Hm)
      as (w'' & Hrun' & Hext & _ & Ht & Hc).
    rewrite Hrun in Hrun'. injection Hrun' as -> -> ->.
    exists t, c. do 3 (split; [done|]). split; [exact Hext|]. by split.
  - pose proof (match_run_Raise lib X a sc n w e HX Hm) as H.
    rewrite Hrun in H. discriminate H.
Qed.

(** X10. [match] works on copies: when it returns, the two tables it
    returns are two new objects, different from each other and from the
    table it was handed, and the table it was handed and every other
    table that existed are as they were; neither is the attribute
    written. *)
Theorem match_leaves_its_argument lib X a sc n w T C w' :
  (X < next_loc lib w)%nat ->
  match_ lib X a sc n w = (Ok (T, C), w') ->
  T <> C /\ T <> X /\ C <> X /\
  (next_loc lib w <= T)%nat /\ (next_loc lib w <= C)%nat /\
  (forall l, (l < next_loc lib w)%nat -> frames lib w' l = frames lib w l) /\
  propensity_score_model lib w' = propensity_score_model lib w.
Proof.
  intros HX Hrun.
  destruct (match_returns lib X a sc n w T C w' HX Hrun)
    as (t & c & _ & -> & -> & (_ & Hpm & Hfr) & _).
  repeat split; try lia; [|done].
  intros l Hl. apply Hfr; lia.
Qed.

(** [match_leaves_its_argument] on [units] with a score column. *)
Lemma match_leaves_its_argument_witness :
  exists T C w',
    match_ Standin.lib 0%nat "assignment" "x" 1 (world_of Standin.lib units)
    = (Ok (T, C), w') /\
    T <> C /\ T <> 0%nat /\ C <> 0%nat /\
    (next_loc _ (world_of Standin.lib units) <= T)%nat /\
    (next_loc _ (world_of Standin.lib units) <= C)%nat /\
    (forall l, (l < next_loc _ (world_of Standin.lib units))%nat ->
               frames _ w' l = frames _ (world_of Standin.lib units) l) /\
    propensity_score_model _ w'
    = propensity_score_model _ (world_of Standin.lib units).
Proof.
  do 3 eexists. split; [reflexivity|].
  eapply (match_leaves_its_argument Standin.lib 0%nat "assignment" "x" 1
            (world_of Standin.lib units)).
  - simpl. lia.
  - reflexivity.
Defined.

Lemma length_rmap {A B} (f : A -> result B) l l' :
  rmap f l = Ok l' -> length l' = length l.
Proof.
  intros H. apply rmap_Forall2 in H. symmetry. by eapply Forall2_length.
Qed.

Lemma wf_boolean_index X mask :
  wf_frame X -> length mask = nrows X -> wf_frame (boolean_index X mask).
Proof.
  intros Hwf Hl k s. unfold boolean_index. cbn [columns nrows].
  rewrite lookup_fmap. destruct (columns X !! k) as [col|] eqn:E; [|done].
  cbn. intros [= <-]. apply length_select. rewrite Hl. symmetry.
  exact (Hwf _ _ E).
Qed.

(** X11. When [match] returns on a well-formed table, the control table is
    the rows of the input with assignment 0, all columns as they are; the
    treated table is the rows with assignment 1, all columns as they are,
    with one more column [matches] that holds one array of positions per
    treated row; and both tables are well-formed. A row whose assignment
    is neither 0 nor 1 is in neither. *)
Theorem match_splits_the_rows lib X a sc n w T C w' :
  (X < next_loc lib w)%nat ->
  wf_frame (frames lib w X) ->
  match_ lib X a sc n w = (Ok (T, C), w') ->
  exists col m,
    getitem (frames lib w X) a = Ok col /\
    frames lib w' C = boolean_index (frames lib w X) (map (cell_eq zero) col) /\
    frames lib w' T
    = setitem (boolean_index (frames lib w X) (map (cell_eq one) col))
        "matches" m /\
    Forall (fun c => exists ix, c = Matches ix) m /\
    length m = count_true (map (cell_eq one) col) /\
    nrows (frames lib w' T) = count_true (map (cell_eq one) col) /\
    nrows (frames lib w' C) = count_true (map (cell_eq zero) col) /\
    wf_frame (frames lib w' T) /\ wf_frame (frames lib w' C).
Proof.
  intros HX Hwf Hrun.
  destruct (match_returns lib X a sc n w T C w' HX Hrun)
    as (t & c & Hm & -> & -> & _ & Ht & Hc).
  unfold match_frames in Hm.
  apply rbind_Ok in Hm as (col & Ha & Hm).
  apply rbind_Ok in Hm as (values & _ & Hm).
  apply rbind_Ok in Hm as (ns & _ & Hm).
  apply rbind_Ok in Hm as (s & Hs & Hm).
  apply rbind_Ok in Hm as (m & Hmm & Hm). injection Hm as <- <-.
  assert (length col = nrows (frames lib w X)) as Hcol
      by exact (Hwf _ _ (getitem_inv _ _ _ Ha)).
  assert (wf_frame (boolean_index (frames lib w X) (map (cell_eq one) col)))
    as Hw1 by (apply wf_boolean_index; [done|by rewrite length_map]).
  assert (wf_frame (boolean_index (frames lib w X) (map (cell_eq zero) col)))
    as Hw0 by (apply wf_boolean_index; [done|by rewrite length_map]).
  assert (length m = count_true (map (cell_eq one) col)) as Hlen.
  { rewrite (length_rmap _ _ _ Hmm). exact (Hw1 _ _ (getitem_inv _ _ _ Hs)). }
  exists col, m. rewrite Ht, Hc.
  repeat split; try done.
  - apply rmap_Forall2 in Hmm. clear -Hmm.
    induction Hmm as [|x y l l' Hxy _ IH]; constructor; [|done].
    apply rbind_Ok in Hxy as (ix & _ & Hxy). injection Hxy as <-. eauto.
  - unfold wf_frame, setitem. cbn [columns nrows].
    apply map_Forall_insert_2; [done|]. exact Hw1.
Qed.

(** [match_splits_the_rows] on [units], matched on the column [x]. *)
Lemma match_splits_the_rows_witness :
  exists T C w' col m,
    match_ Standin.lib 0%nat "assignment" "x" 1 (world_of Standin.lib units)
    = (Ok (T, C), w') /\
    getitem units "assignment" = Ok col /\
    frames _ w' C = boolean_index units (map (cell_eq zero) col) /\
    frames _ w' T
    = setitem (boolean_index units (map (cell_eq one) col)) "matches" m /\
    Forall (fun c => exists ix, c = Matches ix) m /\
    length m = count_true (map (cell_eq one) col) /\
    nrows (frames _ w' T) = count_true (map (cell_eq one) col) /\
    nrows (frames _ w' C) = count_true (map (cell_eq zero) col) /\
    wf_frame (frames _ w' T) /\ wf_frame (frames _ w' C).
Proof.
  destruct (match_splits_the_rows Standin.lib 0%nat "assignment" "x" 1
              (world_of Standin.lib units) 1%nat 2%nat
              (match_ Standin.lib 0%nat "assignment" "x" 1
                 (world_of Standin.lib units)).2)
    as (col & m & H); [simpl; lia|by apply wf_table3|reflexivity|].
  exists 1%nat, 2%nat, (match_ Standin.lib 0%nat "assignment" "x" 1
                          (world_of Standin.lib units)).2, col, m.
  split; [reflexivity|exact H].
Defined.

(** X12. [estimate_treatments] works in place: when it returns, what it
    returns is the [treatments] object it was handed, and that table is as
    it was with one more column [control outcome], one cell per cell of
    its [matches] column; no other table is changed. When the table has no
    [matches] column it raises a [KeyError] naming it; and a call that
    raises changes nothing. *)
Theorem estimate_treatments_works_in_place lib T C o w :
  (forall l,
      (estimate_treatments lib T C o w).1 = Ok l ->
      l = T /\
      exists ms cos,
        getitem (frames lib w T) "matches" = Ok ms /\
        length cos = length ms /\
        frames lib (estimate_treatments lib T C o w).2 T
        = setitem (frames lib w T) "control outcome" cos /\
        forall l', l' <> T ->
          frames lib (estimate_treatments lib T C o w).2 l' = frames lib w l') /\
  (columns (frames lib w T) !! "matches" = None ->
   (estimate_treatments lib T C o w).1 = Raise (KeyError ["matches"])) /\
  (forall e,
      (estimate_treatments lib T C o w).1 = Raise e ->
      (estimate_treatments lib T C o w).2 = w).
Proof.
  rewrite estimate_treatments_run. unfold control_outcomes.
  destruct (getitem (frames lib w T) "matches") as [ms|e0] eqn:Hms;
    cbn [rbind].
  2: { split; [discriminate|]. split; [|done].
       intros Hnone. rewrite (getitem_missing _ _ Hnone) in Hms.
       by injection Hms as <-. }
  destruct (rmap (get_matched_outcome (frames lib w C) o) ms) as [cos|e0]
    eqn:Hcos; cbn [rbind].
  - split; [|split; [|discriminate]].
    + intros l [= <-]. split; [done|]. exists ms, cos.
      split; [done|]. split; [by apply length_rmap in Hcos|].
      cbn. split; [by rewrite fn_lookup_insert|].
      intros l' Hl'. by rewrite fn_lookup_insert_ne.
    + intros Hnone. rewrite (getitem_missing _ _ Hnone) in Hms. discriminate.
  - split; [discriminate|]. split; [|done].
    intros Hnone. rewrite (getitem_missing _ _ Hnone) in Hms. discriminate.
Qed.

(** [estimate_treatments_works_in_place] on a table with no [matches]
    column. *)
Lemma estimate_treatments_works_in_place_witness :
  (estimate_treatments Standin.lib 0%nat 0%nat "y"
     (world_of Standin.lib units)).1 = Raise (KeyError ["matches"]) /\
  (estimate_treatments Standin.lib 0%nat 0%nat "y"
     (world_of Standin.lib units)).2 = world_of Standin.lib units.
Proof.
  split.
  - apply (proj1 (proj2 (estimate_treatments_works_in_place Standin.lib
                           0%nat 0%nat "y" (world_of Standin.lib units)))).
    reflexivity.
  - apply (proj2 (proj2 (estimate_treatments_works_in_place Standin.lib
                           0%nat 0%nat "y" (world_of Standin.lib units)))
             (KeyError ["matches"])).
    reflexivity.
Defined.

(** X13. The matched outcome of a row at the edges. A row with no match
    gets the outcome 0, the sum of nothing, and the outcome column is not
    even looked up; a row with a match in a control table that lacks the
    outcome column raises a [KeyError] naming the column; and over a
    column of numbers the outcome is computed exactly when every matched
    position is a row of the control table, and an [IndexError] is raised
    otherwise. *)
Theorem get_matched_outcome_edges control o :
  get_matched_outcome control o (Matches []) = Ok (Num zero) /\
  (forall i ix,
      columns control !! o = None ->
      get_matched_outcome control o (Matches (i :: ix))
      = Raise (KeyError [o])) /\
  (forall values ix,
      columns control !! o = Some values ->
      Forall (fun c => exists x, c = Num x) values ->
      (Forall (fun i => (i < length values)%nat) ix ->
       exists x, get_matched_outcome control o (Matches ix) = Ok (Num x)) /\
      (~ Forall (fun i => (i < length values)%nat) ix ->
       get_matched_outcome control o (Matches ix) = Raise IndexError)).
Proof.
  split; [reflexivity|]. split.
  - intros i ix Hnone. cbn. by rewrite (getitem_missing _ _ Hnone).
  - intros values ix Hcol Hnum.
    pose (f := fun (k i : nat) =>
                 let? values := getitem control o in
                 match values !! i with
                 | Some c => let? v := as_float c in Ok (fdiv v (of_nat k))
                 | None => Raise IndexError
                 end).
    assert (forall k,
               (Forall (fun i => (i < length values)%nat) ix ->
                exists terms, rmap (f k) ix = Ok terms) /\
               (~ Forall (fun i => (i < length values)%nat) ix ->
                rmap (f k) ix = Raise IndexError)) as H.
    { intros k. induction ix as [|i ix [IH1 IH2]].
      - split; [by exists []|]. intros Hn. destruct Hn. constructor.
      - cbn [rmap]. unfold f at 1 3. rewrite (getitem_Ok _ _ _ Hcol).
        cbn [rbind].
        destruct (values !! i) as [c|] eqn:Hi.
        + assert (i < length values)%nat as Hlt
              by (by eapply lookup_lt_Some).
          destruct (Forall_lookup_1 _ _ _ _ Hnum Hi) as [x ->].
          cbn [as_float rbind]. split.
          * intros Hall. inversion Hall; subst.
            destruct IH1 as [terms Ht]; [done|]. rewrite Ht. by eexists.
          * intros Hn. rewrite IH2; [done|].
            intros Hall. apply Hn. by constructor.
        + apply lookup_ge_None in Hi. split; [|done].
          intros Hall. inversion Hall; subst. lia. }
    destruct (H (length ix)) as [H1 H2]. split.
    + intros Hall. destruct (H1 Hall) as [terms Ht].
      unfold get_matched_outcome. fold (f (length ix)). rewrite Ht.
      by eexists.
    + intros Hn. unfold get_matched_outcome. fold (f (length ix)).
      by rewrite (H2 Hn).
Qed.

End More_match.

(** ** More on the estimates *)

Section More_estimates.
Import PropensityScoreMatching.

(** A run of [estimate_ATC], with all it leaves behind when it returns. *)
Lemma estimate_ATC_run_frame lib X a o ct n w :
  (X < next_loc lib w)%nat ->
  exists w',
    estimate_ATC lib X a o ct n w
    = (atc_value lib (frames lib w X) a o ct n, w') /\
    forall v,
      atc_value lib (frames lib w X) a o ct n = Ok v ->
      (forall l, (l < next_loc lib w)%nat -> frames lib w' l = frames lib w l) /\
      (next_loc lib w <= next_loc lib w')%nat.
Proof.
  intros HX. unfold estimate_ATC, atc_value.
  unfold bind at 1 2 3. unfold load at 1, new at 1, load at 1.
  cbn [frames next_loc propensity_score_model].
  rewrite fn_lookup_insert.
  unfold bind at 1, lift at 1.
  destruct (getitem (frames lib w X) a) as [col|e]; cbn [rbind].
  2: { eexists. split; [done|discriminate]. }
  unfold bind at 1, lift at 1.
  destruct (rmap flip col) as [fl|e]; cbn [rbind].
  2: { eexists. split; [done|discriminate]. }
  unfold bind at 1 2, load at 1, store at 1.
  cbn [frames next_loc propensity_score_model].
  rewrite fn_lookup_insert.
  set (w2 := mkWorld lib _ _ _).
  assert (next_loc lib w < next_loc lib w2)%nat as Hlt by (cbn; lia).
  assert (frames lib w2 (next_loc lib w) = setitem (frames lib w X) a fl) as Hf
      by (cbn; apply fn_lookup_insert).
  destruct (estimate_ATT_run lib (next_loc lib w) a o ct n w2 Hlt)
    as (w' & Hrun & Hok).
  rewrite Hf in Hrun, Hok.
  unfold bind. rewrite Hrun.
  destruct (att_value lib (setitem (frames lib w X) a fl) a o ct n) as [v|e];
    cbn [rbind].
  2: { eexists. split; [done|discriminate]. }
  exists w'. split; [done|]. intros _ _.
  destruct (Hok v eq_refl) as (x1 & _ & _ & Hle & _ & Hfr).
  split.
  - intros l Hl. rewrite Hfr by (cbn; lia). cbn.
    by rewrite !fn_lookup_insert_ne by lia.
  - cbn in Hle. lia.
Qed.

(** A run of [estimate_ATE]. *)
Lemma estimate_ATE_run lib X a o ct n w :
  (X < next_loc lib w)%nat ->
  exists w',
    estimate_ATE lib X a o ct n w
    = (ate_value lib (frames lib w X) a o ct n, w') /\
    forall v,
      ate_value lib (frames lib w X) a o ct n = Ok v ->
      exists x1,
        scored lib (frames lib w X) ct a = Ok x1 /\
        frames lib w' X = x1 /\
        forall l, (l < next_loc lib w)%nat -> l <> X ->
                  frames lib w' l = frames lib w l.
Proof.
  intros HX. unfold estimate_ATE, ate_value.
  destruct (estimate_ATT_run lib X a o ct n w HX) as (w1 & Hatt & Hok1).
  unfold bind at 1. rewrite Hatt.
  destruct (att_value lib (frames lib w X) a o ct n) as [att|e];
    cbn [rbind]; [|eexists; split; [done|discriminate]].
  destruct (Hok1 att eq_refl) as (x1 & Hsc & Hx1 & Hle & _ & Hfr1).
  rewrite Hsc. cbn [rbind].
  assert (X < next_loc lib w1)%nat as HX1 by lia.
  destruct (estimate_ATC_run_frame lib X a o ct n w1 HX1)
    as (w2 & Hatc & Hok2).
  rewrite Hx1 in Hatc, Hok2. unfold bind at 1. rewrite Hatc.
  destruct (atc_value lib x1 a o ct n) as [atc|e];
    cbn [rbind]; [|eexists; split; [done|discriminate]].
  destruct (Hok2 atc eq_refl) as [Hfr2 _].
  exists w2. unfold bind, load, lift, ret. rewrite (Hfr2 X HX1), Hx1.
  repeat run_step; (split; [done|]); intros v Hv; try discriminate Hv.
  exists x1. split; [done|]. split; [done|].
  intros l Hl Hne. rewrite Hfr2 by lia. by apply Hfr1.
Qed.

(** X14. [estimate_ATT] changes the table it is handed: when it returns,
    the caller's table is as it was with a ['propensity score'] column
    added or replaced, one score per row (the [matches] and
    [control outcome] columns go to a copy), and every other table that
    existed is as it was. *)
Theorem estimate_ATT_leaves_the_scores lib X a o ct n w v w' :
  (X < next_loc lib w)%nat ->
  estimate_ATT lib X a o ct n w = (Ok v, w') ->
  (exists scores,
      length scores = nrows (frames lib w X) /\
      frames lib w' X = setitem (frames lib w X) "propensity score" scores) /\
  forall l, (l < next_loc lib w)%nat -> l <> X ->
            frames lib w' l = frames lib w l.
Proof.
  intros HX Hrun.
  destruct (estimate_ATT_run lib X a o ct n w HX) as (w1 & Hatt & Hok).
  rewrite Hrun in Hatt. injection Hatt as Hv <-.
  destruct (Hok v (eq_sym Hv)) as (x1 & Hsc & Hx1 & _ & _ & Hfr).
  destruct (scored_inv lib _ _ _ _ Hsc) as (scores & Hlen & ->).
  split; [by exists scores|exact Hfr].
Qed.

(** [estimate_ATT_leaves_the_scores] on [units]. *)
Lemma estimate_ATT_leaves_the_scores_witness :
  exists scores,
    length scores = nrows units /\
    frames _ (estimate_ATT Standin.lib 0%nat "assignment" "y" [("x", "c")] 1
                (world_of Standin.lib units)).2 0%nat
    = setitem units "propensity score" scores.
Proof.
  refine (proj1 (estimate_ATT_leaves_the_scores Standin.lib 0%nat
                   "assignment" "y" [("x", "c")] 1
                   (world_of Standin.lib units) (of_Z (-10)) _ _ _)).
  - simpl. lia.
  - apply injective_projections; [vm_compute; reflexivity|reflexivity].
Defined.

(** X15. [estimate_ATC] works on a copy: when it returns, the table it
    was handed, with its assignment column, and every other table that
    existed are as they were. *)
Theorem estimate_ATC_leaves_its_argument lib X a o ct n w v w' :
  (X < next_loc lib w)%nat ->
  estimate_ATC lib X a o ct n w = (Ok v, w') ->
  forall l, (l < next_loc lib w)%nat -> frames lib w' l = frames lib w l.
Proof.
  intros HX Hrun.
  destruct (estimate_ATC_run_frame lib X a o ct n w HX) as (w1 & Hatc & Hok).
  rewrite Hrun in Hatc. injection Hatc as Hv <-.
  by destruct (Hok v (eq_sym Hv)).
Qed.

(** [estimate_ATC_leaves_its_argument] on [units]. *)
Lemma estimate_ATC_leaves_its_argument_witness :
  frames _ (estimate_ATC Standin.lib 0%nat "assignment" "y" [("x", "c")] 1
              (world_of Standin.lib units)).2 0%nat
  = units.
Proof.
  eapply (estimate_ATC_leaves_its_argument Standin.lib 0%nat "assignment" "y"
            [("x", "c")] 1 (world_of Standin.lib units)).
  - simpl. lia.
  - apply injective_projections; [vm_compute; reflexivity|reflexivity].
  - simpl. lia.
Defined.

(** X16. [estimate_ATE] leaves the caller's table as its first step,
    [estimate_ATT], leaves it: when it returns, the table is as it was
    with a ['propensity score'] column added or replaced, one score per
    row, and every other table that existed is as it was. *)
Theorem estimate_ATE_leaves_the_scores lib X a o ct n w v w' :
  (X < next_loc lib w)%nat ->
  estimate_ATE lib X a o ct n w = (Ok v, w') ->
  (exists scores,
      length scores = nrows (frames lib w X) /\
      frames lib w' X = setitem (frames lib w X) "propensity score" scores) /\
  forall l, (l < next_loc lib w)%nat -> l <> X ->
            frames lib w' l = frames lib w l.
Proof.
  intros HX Hrun.
  destruct (estimate_ATE_run lib X a o ct n w HX) as (w1 & Hate & Hok).
  rewrite Hrun in Hate. injection Hate as Hv <-.
  destruct (Hok v (eq_sym Hv)) as (x1 & Hsc & Hx1 & Hfr).
  destruct (scored_inv lib _ _ _ _ Hsc) as (scores & Hlen & ->).
  split; [by exists scores|exact Hfr].
Qed.

(** [estimate_ATE_leaves_the_scores] on [units]. *)
Lemma estimate_ATE_leaves_the_scores_witness :
  exists scores,
    length scores = nrows units /\
    frames _ (estimate_ATE Standin.lib 0%nat "assignment" "y" [("x", "c")] 1
                (world_of Standin.lib units)).2 0%nat
    = setitem units "propensity score" scores.
Proof.
  refine (proj1 (estimate_ATE_leaves_the_scores Standin.lib 0%nat
                   "assignment" "y" [("x", "c")] 1
                   (world_of Standin.lib units)
                   (fmul (fdiv one (of_Z 3)) (of_Z (-10))) _ _ _)).
  - simpl. lia.
  - apply injective_projections; [vm_compute; reflexivity|reflexivity].
Defined.

Lemma score_confounders_pass_through_frame lib x pre df rc :
  Forall (fun kv => is_dummy_tag kv.2 = false /\ is_Some (columns x !! kv.1))
    pre ->
  exists df',
    score_confounders lib x pre df rc = Ok (df', rc ++ pre.*1) /\
    nrows df' = nrows df /\
    forall k, k ∉ pre.*1 -> columns df' !! k = columns df !! k.
Proof.
  intros H. revert df rc.
  induction H as [|[c t] pre [Ht [col Hc]] _ IH]; intros df rc.
  - exists df. cbn. by rewrite app_nil_r.
  - cbn [score_confounders]. unfold is_dummy_tag in Ht. cbn in Ht.
    rewrite Ht. cbn in Hc. rewrite (getitem_Ok _ _ _ Hc). cbn [rbind].
    destruct (IH (setitem (setitem df c col) c col) (rc ++ [c]))
      as (df' & -> & Hn & Hk).
    exists df'. cbn [fmap list_fmap fst]. rewrite <- app_assoc.
    split; [done|]. split; [done|].
    intros k Hnotin. apply not_elem_of_cons in Hnotin as [Hne Hnotin].
    rewrite Hk by done. unfold setitem. cbn [columns].
    by rewrite !lookup_insert_ne.
Qed.

(** [score] with an intercept, on a table with no row whose columns are
    there: line 115 refuses to add the ['intercept'] column. *)
Lemma scored_no_rows lib x ct a :
  nrows x = 0%nat ->
  is_Some (columns x !! a) ->
  Forall (fun kv => is_dummy_tag kv.2 = false /\ is_Some (columns x !! kv.1))
    ct ->
  "intercept" ∉ a :: ct.*1 ->
  score_fit lib x ct a true = Raise ValueError.
Proof.
  intros Hn Ha Hct Hi. apply not_elem_of_cons in Hi as [Hia Hict].
  unfold score_fit.
  rewrite getitems_Ok by (constructor; [done|constructor]). cbn [rbind].
  destruct (score_confounders_pass_through_frame lib x ct
              (mkDataFrame (nrows x)
                 (filter (fun kv => kv.1 ∈ [a]) (columns x))) [] Hct)
    as (df' & -> & Hn' & Hk).
  cbn [rbind]. unfold loc_setscalar.
  rewrite Hn', (Hk _ Hict). cbn [nrows columns]. rewrite Hn.
  rewrite (proj2 (map_lookup_filter_None _ _ _)); [done|].
  right. intros v _. cbn.
  intros [Heq|H]%elem_of_cons; [by apply Hia|by apply elem_of_nil in H].
Qed.

(** X17. [estimate_ATE] never returns on a table with no row. With the
    assignment column and the confounders in the table, the confounders
    passed through as they are and none of these columns called
    ['intercept'], the call fails in [score], before any library is
    called: line 115 sets the scalar intercept on a frame with no row,
    which pandas refuses with a [ValueError], and [score],
    [estimate_ATT] and [estimate_ATE] raise it with nothing written. On
    any other path, whatever the libraries answer, the table still has no
    row when the proportion of treated rows is computed, and
    [float(len(X))] is 0. *)
Theorem estimate_ATE_of_no_rows lib X a o ct n w :
  (X < next_loc lib w)%nat ->
  nrows (frames lib w X) = 0%nat ->
  (exists e, (estimate_ATE lib X a o ct n w).1 = Raise e) /\
  (is_Some (columns (frames lib w X) !! a) ->
   Forall (fun kv => is_dummy_tag kv.2 = false /\
                     is_Some (columns (frames lib w X) !! kv.1)) ct ->
   "intercept" ∉ a :: ct.*1 ->
   score lib X ct a false true w = (Raise ValueError, w) /\
   (estimate_ATT lib X a o ct n w).1 = Raise ValueError /\
   (estimate_ATE lib X a o ct n w).1 = Raise ValueError).
Proof.
  intros HX Hn.
  destruct (estimate_ATE_run lib X a o ct n w HX) as (w1 & Hate & _).
  destruct (estimate_ATT_run lib X a o ct n w HX) as (w2 & Hatt & _).
  rewrite Hate, Hatt. cbn [fst]. split.
  - unfold ate_value.
    destruct (att_value lib (frames lib w X) a o ct n); cbn [rbind]; [|eauto].
    destruct (scored lib (frames lib w X) ct a) as [x1|] eqn:Hsc;
      cbn [rbind]; [|eauto].
    destruct (atc_value lib x1 a o ct n); cbn [rbind]; [|eauto].
    destruct (count_eq x1 a one); cbn [rbind]; [|eauto].
    destruct (scored_inv lib _ _ _ _ Hsc) as (scores & _ & ->).
    cbn [nrows setitem]. rewrite Hn. cbn. eauto.
  - intros Ha Hct Hi.
    pose proof (scored_no_rows lib _ ct a Hn Ha Hct Hi) as Hfit.
    split; [by rewrite score_run, Hfit|].
    unfold ate_value, att_value, scored. by rewrite Hfit.
Qed.

(** [estimate_ATE_of_no_rows] on [no_rows]. *)
Lemma estimate_ATE_of_no_rows_witness :
  (estimate_ATE Standin.lib 0%nat "assignment" "y" [("x", "c")] 1
     (world_of Standin.lib no_rows)).1 = Raise ValueError.
Proof.
  refine (proj2 (proj2 (proj2 (estimate_ATE_of_no_rows Standin.lib 0%nat
                                 "assignment" "y" [("x", "c")] 1
                                 (world_of Standin.lib no_rows) _ _)
                          _ _ _))).
  - cbn. lia.
  - reflexivity.
  - eexists. reflexivity.
  - constructor; [|constructor]. split; [reflexivity|eexists; reflexivity].
  - change ("intercept" ∉ ["assignment"; "x"]). rewrite !not_elem_of_cons.
    repeat split; try discriminate. apply not_elem_of_nil.
Defined.

(** [== 0] holds of the two zeros, and [== 1] of 1.0 alone. *)
Lemma feqb_zero x : feqb x zero = true -> exists s, x = S754_zero s.
Proof.
  destruct x as [s|s| |s m e]; try discriminate;
    [eauto|by destruct s|by destruct s].
Qed.

Lemma feqb_one x : feqb x one = true -> x = one.
Proof.
  destruct x as [s|s| |s m e]; try discriminate; try (by destruct s).
  unfold feqb, SFeqb, SFcompare, one. destruct s; [discriminate|].
  destruct (e ?= -52)%Z eqn:Ee; try discriminate.
  destruct (Pos.compare_cont Eq m 4503599627370496) eqn:Em; try discriminate.
  intros _. apply Z.compare_eq in Ee. apply Pos.compare_eq in Em.
  by subst.
Qed.

(** X18. The recoding [(assignment + 1) % 2] of [estimate_ATC] exchanges
    the two groups: on a cell that [== 0] or [== 1] holds of, it returns,
    and [== 1] holds of the new cell exactly when [== 0] held of the old
    one, and [== 0] exactly when [== 1] did. *)
Theorem flip_exchanges_the_groups c :
  in_a_group c = true ->
  exists c',
    flip c = Ok c' /\
    cell_eq one c' = cell_eq zero c /\ cell_eq zero c' = cell_eq one c.
Proof.
  unfold in_a_group. intros H.
  destruct c as [x| |]; try discriminate H.
  unfold flip. cbn [as_float rbind]. eexists. split; [reflexivity|].
  cbn [cell_eq] in H |- *. apply orb_true_iff in H as [H|H].
  - apply feqb_zero in H as [s ->]. by destruct s.
  - apply feqb_one in H as ->. by vm_compute.
Qed.

(** [flip_exchanges_the_groups] on a treated row. *)
Lemma flip_exchanges_the_groups_witness :
  exists c',
    flip (Num one) = Ok c' /\
    cell_eq one c' = cell_eq zero (Num one) /\
    cell_eq zero c' = cell_eq one (Num one).
Proof.
  apply (flip_exchanges_the_groups (Num one)). reflexivity.
Defined.

Lemma flip_flags col :
  Forall is_flag col ->
  exists fl, rmap flip col = Ok fl /\ rmap flip fl = Ok col.
Proof.
  induction 1 as [|c col Hc _ (fl & Hfl & Hback)]; [by exists []|].
  cbn [rmap]. rewrite Hfl.
  destruct Hc as [-> | ->].
  - exists (Num one :: fl). split; [reflexivity|].
    cbn [rmap]. rewrite Hback. reflexivity.
  - exists (Num zero :: fl). split; [reflexivity|].
    cbn [rmap]. rewrite Hback. reflexivity.
Qed.

Lemma setitem_back x a fl col :
  getitem x a = Ok col -> setitem (setitem x a fl) a col = x.
Proof.
  intros H%getitem_inv. destruct x as [n cols]. unfold setitem.
  cbn [nrows columns] in *. f_equal.
  rewrite insert_insert_eq. by apply insert_id.
Qed.

Lemma getitem_setitem_eq x a s : getitem (setitem x a s) a = Ok s.
Proof. apply getitem_Ok. unfold setitem. cbn. apply lookup_insert_eq. Qed.

(** X20. On a table whose assignment column holds only the numbers 0 and
    1, the two estimates mirror each other: [estimate_ATC] on the table
    with the two groups exchanged answers the opposite of what
    [estimate_ATT] answers on the table itself, and raises what it
    raises. *)
Theorem estimate_ATC_of_exchanged_groups lib X a o ct n w col :
  (X < next_loc lib w)%nat ->
  getitem (frames lib w X) a = Ok col ->
  Forall is_flag col ->
  exists exchanged,
    rmap flip col = Ok exchanged /\
    (estimate_ATC lib X a o ct n
       (with_frame lib w X (setitem (frames lib w X) a exchanged))).1
    = (let? att := (estimate_ATT lib X a o ct n w).1 in Ok (fneg att)).
Proof.
  intros HX Hcol Hflags.
  destruct (flip_flags col Hflags) as (fl & Hfl & Hback).
  exists fl. split; [done|].
  set (w1 := with_frame lib w X _).
  assert (X < next_loc lib w1)%nat as HX1 by done.
  destruct (estimate_ATC_run lib X a o ct n w1 HX1) as (w2 & -> & _).
  destruct (estimate_ATT_run lib X a o ct n w HX) as (w3 & -> & _).
  cbn [fst]. unfold w1, with_frame. cbn [frames].
  rewrite fn_lookup_insert. unfold atc_value.
  rewrite getitem_setitem_eq. cbn [rbind]. rewrite Hback. cbn [rbind].
  by rewrite (setitem_back _ _ _ _ Hcol).
Qed.

(** [estimate_ATC_of_exchanged_groups] on [units]. *)
Lemma estimate_ATC_of_exchanged_groups_witness :
  exists exchanged,
    rmap flip [Num one; Num zero; Num zero] = Ok exchanged /\
    (estimate_ATC Standin.lib 0%nat "assignment" "y" [("x", "c")] 1
       (with_frame Standin.lib (world_of Standin.lib units) 0%nat
          (setitem (frames _ (world_of Standin.lib units) 0%nat)
             "assignment" exchanged))).1
    = (let? att := (estimate_ATT Standin.lib 0%nat "assignment" "y"
                      [("x", "c")] 1 (world_of Standin.lib units)).1 in
       Ok (fneg att)).
Proof.
  apply (estimate_ATC_of_exchanged_groups Standin.lib 0%nat "assignment" "y"
           [("x", "c")] 1 (world_of Standin.lib units)).
  - simpl. lia.
  - reflexivity.
  - do 3 (constructor; [unfold is_flag; auto|]). constructor.
Defined.

Section Silence.
Variable lib : Collaborators.
Variable cls : string.
Hypothesis Hcls : foreign cls.
Hypothesis Hlib : never_raises lib cls.

Ltac mute :=
  repeat first
    [ apply quiet_ret | apply quiet_load | apply quiet_store | apply quiet_new
    | apply quiet_bind; [|intros ?]
    | apply quiet_lift
    | apply not_raises_Ok
    | apply not_raises_builtin; first [assumption|exact I]
    | apply not_raises_getitem; assumption
    | apply not_raises_mean; assumption
    | apply not_raises_as_float; assumption
    | apply not_raises_rbind; [|intros ?]
    | apply not_raises_rmap; intros ?
    | match goal with
      | |- ~ raises (match ?x with _ => _ end) _ => destruct x
      end ].

Lemma not_raises_get_matched_outcome c o m :
  ~ raises (get_matched_outcome c o m) cls.
Proof. unfold get_matched_outcome. mute. Qed.

Lemma not_raises_flip c : ~ raises (flip c) cls.
Proof. unfold flip. mute. Qed.

Lemma not_raises_count_eq x c v : ~ raises (count_eq x c v) cls.
Proof. unfold count_eq. mute. Qed.

Lemma not_raises_py_truediv a b : ~ raises (py_truediv a b) cls.
Proof. unfold py_truediv. mute. Qed.

Lemma quiet_estimate_treatments t c o :
  quiet cls (estimate_treatments lib t c o).
Proof.
  unfold estimate_treatments.
  do 3 (apply quiet_bind; [mute|intros ?]).
  apply quiet_bind; [|intros ?; mute].
  apply quiet_lift, not_raises_rmap. intros ?.
  apply not_raises_get_matched_outcome.
Qed.

Lemma quiet_estimate_ATT X a o ct n : quiet cls (estimate_ATT lib X a o ct n).
Proof.
  unfold estimate_ATT.
  apply quiet_bind; [by apply quiet_score|intros ?].
  apply quiet_bind; [by apply quiet_match|intros [? ?]].
  apply quiet_bind; [apply quiet_estimate_treatments|intros ?].
  mute.
Qed.

Lemma quiet_estimate_ATC X a o ct n : quiet cls (estimate_ATC lib X a o ct n).
Proof.
  unfold estimate_ATC.
  do 4 (apply quiet_bind; [mute|intros ?]).
  apply quiet_bind;
    [apply quiet_lift, not_raises_rmap; intros ?; apply not_raises_flip
    |intros ?].
  do 2 (apply quiet_bind; [mute|intros ?]).
  apply quiet_bind; [apply quiet_estimate_ATT|intros ?]. mute.
Qed.

Lemma quiet_estimate_ATE X a o ct n : quiet cls (estimate_ATE lib X a o ct n).
Proof.
  unfold estimate_ATE.
  apply quiet_bind; [apply quiet_estimate_ATT|intros ?].
  apply quiet_bind; [apply quiet_estimate_ATC|intros ?].
  apply quiet_bind; [mute|intros ?].
  apply quiet_bind; [apply quiet_lift, not_raises_count_eq|intros ?].
  apply quiet_bind; [mute|intros ?].
  apply quiet_bind; [apply quiet_lift, not_raises_py_truediv|intros ?].
  mute.
Qed.

End Silence.

(** X21. The estimates raise no exception of a class of the module's own:
    an exception of a class other than Python's own ([KeyError],
    [TypeError], [IndexError], [ValueError], [ZeroDivisionError],
    [NameError]) comes out of [estimate_treatments], [estimate_ATT],
    [estimate_ATC] or [estimate_ATE] only if a call into the libraries
    raised it. *)
Theorem estimates_raise_only_what_the_libraries_raise lib cls X a o ct n t c w :
  foreign cls ->
  never_raises lib cls ->
  ~ raises (estimate_treatments lib t c o w).1 cls /\
  ~ raises (estimate_ATT lib X a o ct n w).1 cls /\
  ~ raises (estimate_ATC lib X a o ct n w).1 cls /\
  ~ raises (estimate_ATE lib X a o ct n w).1 cls.
Proof.
  intros Hcls Hlib. repeat split.
  - by apply quiet_estimate_treatments.
  - by apply quiet_estimate_ATT.
  - by apply quiet_estimate_ATC.
  - by apply quiet_estimate_ATE.
Qed.

(** [estimates_raise_only_what_the_libraries_raise] for [DataError], on
    [units]. *)
Lemma estimates_raise_only_what_the_libraries_raise_witness :
  ~ raises (estimate_treatments Standin.lib 0%nat 0%nat "y"
              (world_of Standin.lib units)).1 "DataError" /\
  ~ raises (estimate_ATT Standin.lib 0%nat "assignment" "y" [("x", "c")] 1
              (world_of Standin.lib units)).1 "DataError" /\
  ~ raises (estimate_ATC Standin.lib 0%nat "assignment" "y" [("x", "c")] 1
              (world_of Standin.lib units)).1 "DataError" /\
  ~ raises (estimate_ATE Standin.lib 0%nat "assignment" "y" [("x", "c")] 1
              (world_of Standin.lib units)).1 "DataError".
Proof.
  apply (estimates_raise_only_what_the_libraries_raise Standin.lib
           "DataError" 0%nat "assignment" "y" [("x", "c")] 1 0%nat 0%nat
           (world_of Standin.lib units)).
  - exact foreign_DataError.
  - exact (standin_never_raises "DataError" foreign_DataError).
Defined.

End More_estimates.
